(** * The SPARC calculator adapter (sparc/calculator.py)

    A shallow embedding of the methods of class [SPARC] that translate
    calculator parameters, run the external binary and extract results,
    followed by the properties proved about them.

    Conventions of the embedding:
    - a Python [str] is a [string] of bytes; [str.lower], [str.upper] and
      [str.strip] are modelled on the ASCII range and leave other bytes alone;
    - a Python [float] is a binary64 [float] of the kernel;
    - dictionaries keyed by parameter or property names are [gmap string _];
      the keyword arguments of a call keep their order and are a list of
      items with distinct keys;
    - the nested dictionaries returned by the output parser have a fixed set
      of keys of different types: they are records whose fields are optional;
    - a method is a computation over the calculator object and the list of
      warnings issued so far, which returns a value or raises an exception;
      what a method assigned before raising stays assigned. *)

From Stdlib Require Import ZArith String Ascii.
From Stdlib Require Import Floats.PrimFloat.
From stdpp Require Import gmap strings list fin_maps pretty.

Set Warnings "-register-all,-inexact-float".

Local Open Scope string_scope.
Local Open Scope Z_scope.

(** ** Strings *)

Definition is_ascii_upper (c : ascii) : bool :=
  let n := N_of_ascii c in ((65 <=? n) && (n <=? 90))%N.

Definition is_ascii_lower (c : ascii) : bool :=
  let n := N_of_ascii c in ((97 <=? n) && (n <=? 122))%N.

Definition lower_ascii (c : ascii) : ascii :=
  if is_ascii_upper c then ascii_of_N (N_of_ascii c + 32) else c.

Definition upper_ascii (c : ascii) : ascii :=
  if is_ascii_lower c then ascii_of_N (N_of_ascii c - 32) else c.

Fixpoint map_string (f : ascii -> ascii) (s : string) : string :=
  match s with
  | EmptyString => EmptyString
  | String c r => String (f c) (map_string f r)
  end.

(** [s.lower()] and [s.upper()]. *)
Definition lower (s : string) : string := map_string lower_ascii s.
Definition upper (s : string) : string := map_string upper_ascii s.

(** The characters [str.strip()] removes: tab, line feed, vertical tab, form
    feed, carriage return, the four separators 28 to 31 and the space. *)
Definition is_space (c : ascii) : bool :=
  let n := N_of_ascii c in (((9 <=? n) && (n <=? 13)) || ((28 <=? n) && (n <=? 32)))%N.

Fixpoint lstrip (s : string) : string :=
  match s with
  | EmptyString => EmptyString
  | String c r => if is_space c then lstrip r else s
  end.

Definition rstrip (s : string) : string := String.rev (lstrip (String.rev s)).

(** [s.strip()]. *)
Definition strip (s : string) : string := rstrip (lstrip s).

(** [sep.join(parts)]. *)
Definition join (sep : string) (parts : list string) : string := String.concat sep parts.

(** The double quote character, for messages that quote a command. *)
Definition dquote : string := String (ascii_of_N 34) EmptyString.

(** ** Values and exceptions *)

(** The values a parameter or a result can hold. *)
Inductive pyval : Type :=
| PyNone
| PyBool (b : bool)
| PyInt (n : Z)
| PyFloat (x : float)
| PyStr (s : string)
| PySeq (items : list pyval).

(** The exception classes the calculator raises. [EnvironmentError] is the
    built-in alias of [OSError]. *)
Inductive exn_class : Type :=
| CalculationFailed
| EnvironmentError
| ValueError
| KeyError
| TypeError
| AttributeError
| IndexError.

Record exn : Type := Exn { exn_kind : exn_class; exn_msg : string }.

(** ** Raw results, as the output parser returns them *)

(** A parsed quantity: [{"value": ..., "unit": ...}]; the field [unit_str]
    is the entry under ["unit"]. *)
Record quantity : Type := Quantity { value : float; unit_str : string }.

(** One ionic step of the [.out] file: the quantities it reports, by name. *)
Abbreviation ionic_step := (gmap string quantity).

(** [raw_results["out"]]; the key is ["ionic_steps"]. *)
Record out_results : Type := OutResults { ionic_steps : option (list ionic_step) }.

(** The empty dictionary, at the type of [raw_results["out"]]. *)
Definition empty_out : out_results := {| ionic_steps := None |}.

(** The dictionary returned by the bundle's [read_results]; the keys are
    ["static"], ["geopt"], ["aimd"] and ["out"]. *)
Record raw_results_dict : Type := RawResults {
  static : option (gmap string pyval);
  geopt : option pyval;
  aimd : option pyval;
  out : option out_results
}.

(** The empty dictionary, at the type of [raw_results]. *)
Definition empty_raw : raw_results_dict :=
  {| static := None; geopt := None; aimd := None; out := None |}.

(** ** Computations *)

Inductive outcome (A : Type) : Type :=
| Returned (a : A)
| Raised (e : exn).
Arguments Returned {A} a.
Arguments Raised {A} e.

(** What a computation reads and writes: the object it is a method of and the
    warnings issued so far (most recent last). *)
Record world (Self : Type) : Type := World { self : Self; warnings : list string }.
Arguments World {Self} self warnings.
Arguments self {Self} w.
Arguments warnings {Self} w.

Definition M (Self A : Type) : Type := world Self -> outcome A * world Self.

Definition ret {Self A} (a : A) : M Self A := fun w => (Returned a, w).

Definition bind {Self A B} (m : M Self A) (k : A -> M Self B) : M Self B :=
  fun w =>
    match m w with
    | (Returned a, w') => k a w'
    | (Raised e, w') => (Raised e, w')
    end.

Definition raise {Self A} (c : exn_class) (msg : string) : M Self A :=
  fun w => (Raised (Exn c msg), w).

(** [warn(msg)]. *)
Definition warn {Self} (msg : string) : M Self unit :=
  fun w => (Returned tt, World (self w) (warnings w ++ [msg])).

Definition get_self {Self} : M Self Self := fun w => (Returned (self w), w).

Definition update_self {Self} (f : Self -> Self) : M Self unit :=
  fun w => (Returned tt, World (f (self w)) (warnings w)).

#[global] Instance M_ret {Self} : MRet (M Self) := @ret Self.
#[global] Instance M_bind {Self} : MBind (M Self) := fun A B k m => bind m k.

(** [l[i]] on a list, with Python's negative indices. *)
Definition py_getitem {Self A} (l : list A) (i : Z) : M Self A :=
  let n := Z.of_nat (length l) in
  let j := if i <? 0 then i + n else i in
  if (j <? 0) || (n <=? j) then raise IndexError "list index out of range"
  else
    match l !! Z.to_nat j with
    | Some x => mret x
    | None => raise IndexError "list index out of range"
    end.

(** [d()] on a dictionary: a dictionary is not callable. *)
Definition py_call_dict {Self A} (d : raw_results_dict) : M Self A :=
  raise TypeError "'dict' object is not callable".

(** [key in d], [d[key]] and [d.pop(key)] on a dictionary. *)
Definition dict_contains {V} (d : gmap string V) (key : string) : bool :=
  bool_decide (is_Some (d !! key)).

Definition dict_getitem {Self V} (d : gmap string V) (key : string) : M Self V :=
  match d !! key with
  | Some v => mret v
  | None => raise KeyError key
  end.

Definition dict_pop {Self V} (d : gmap string V) (key : string) : M Self (V * gmap string V) :=
  match d !! key with
  | Some v => mret (v, delete key d)
  | None => raise KeyError key
  end.

(** [v.lower()]: only a string has the method. *)
Definition py_lower {Self} (v : pyval) : M Self string :=
  match v with
  | PyStr s => mret (lower s)
  | _ => raise AttributeError "object has no attribute 'lower'"
  end.

(** ** The calculator *)

(** [sparc_python_inputs]: the calculator parameters given in Angstrom and eV
    units, which are translated rather than passed through. *)
Definition sparc_python_inputs : list string :=
  ["xc"; "h"; "kpts"; "convergence"; "gpts"; "nbands"; "encut"].

Module SPARC.

(** The attributes of a calculator object that the methods below use.
    [proc] holds the return code of the completed process. *)
Record obj : Type := Obj {
  command : option string;
  label : string;
  directory : string;
  valid_params : gmap string pyval;
  special_params : gmap string pyval;
  raw_results : raw_results_dict;
  results : gmap string pyval;
  proc : option Z
}.

Definition special_inputs : list string := sparc_python_inputs.

Definition set_command (c : option string) (o : obj) : obj :=
  {| command := c; label := label o; directory := directory o;
     valid_params := valid_params o; special_params := special_params o;
     raw_results := raw_results o; results := results o; proc := proc o |}.

Definition set_raw_results (r : raw_results_dict) (o : obj) : obj :=
  {| command := command o; label := label o; directory := directory o;
     valid_params := valid_params o; special_params := special_params o;
     raw_results := r; results := results o; proc := proc o |}.

Definition set_results (r : gmap string pyval) (o : obj) : obj :=
  {| command := command o; label := label o; directory := directory o;
     valid_params := valid_params o; special_params := special_params o;
     raw_results := raw_results o; results := r; proc := proc o |}.

Definition set_proc (p : option Z) (o : obj) : obj :=
  {| command := command o; label := label o; directory := directory o;
     valid_params := valid_params o; special_params := special_params o;
     raw_results := raw_results o; results := results o; proc := p |}.

(** [self.results[key] = v]. *)
Definition store_result (key : string) (v : pyval) : M obj unit :=
  update_self (fun o => set_results (<[key := v]> (results o)) o).

(** The texts of the warnings and of the error of [_make_command] and
    [_sanitize_kwargs]: the command was inferred from the [PATH]; no command
    was found; the validator rejected a value; a key was given before in
    another letter case. *)
Definition inferred_warning (command_env : string) : string :=
  "Your sparc command is inferred to be " ++ command_env ++ ", "
  ++ "If this is not correct, please manually set $ASE_SPARC_COMMAND or SPARC.command!".

Definition no_setup_message : string :=
  "Cannot find your sparc setup via $ASE_SPARC_COMMAND, SPARC.command, or "
  ++ "infer from your $PATH. Please refer to the manual!".

Definition rejected_warning (key : string) : string :=
  "Input parameter " ++ key ++ " does not have a valid value!".

Definition repeated_warning (key : string) : string :=
  "Parameter " ++ key
  ++ " (case-insentivie) appears multiple times in the calculator setup!".

Section Calculator.

(** What the calculator takes from its environment and from the modules it
    imports. *)

(** [os.environ]. *)
Variable environ : gmap string string.

(** The result of [_find_default_sparc()] (module [utils]): the [sparc]
    executable and the MPI launcher found in the [PATH], if any, and the
    number of cores. *)
Variable found_sparc : option string * option string * Z.

(** [subprocess.run(command, shell=True, cwd=directory)]: the return code of
    the completed process, or the message of the [OSError] raised instead. *)
Variable subprocess_run : string -> string -> string + Z.

(** [defaultAPI.validate_input(key, value)] (module [inputs]). *)
Variable validate_input : string -> pyval -> bool.

(** An [Atoms] object with its [cell] attribute, and [h2gpts(h, cell)]
    (module [utils]). *)
Variable Atoms : Type.
Variable Cell : Type.
Variable cell : Atoms -> Cell.
Variable h2gpts : pyval -> Cell -> pyval.

(** [Hartree] of [ase.units]: one Hartree in eV. *)
Variable Hartree : float.

(** The text of a value inside a formatted message. *)
Variable py_str : pyval -> string.

(** [_extract_geopt_results] and [_extract_aimd_results], which [read_results]
    calls and this class does not define. *)
Variable _extract_geopt_results : M obj unit.
Variable _extract_aimd_results : M obj unit.

(** [_make_command(extras)]; [extras] is a list or tuple of strings, or a
    string. *)
Definition _make_command (extras : list string + string) : M obj string :=
  let extras :=
    match extras with
    | inl parts => join " " parts
    | inr s => strip s
    end in
  self ← get_self;
  match command self with
  | None =>
      let command_env := environ !! "ASE_SPARC_COMMAND" in
      command_env ←
        match command_env with
        | None =>
            let '(sparc_exe, mpi_exe, num_cores) := found_sparc in
            match sparc_exe with
            | None =>
                raise EnvironmentError no_setup_message
            | Some sparc_exe =>
                let command_env :=
                  match mpi_exe with
                  | Some mpi_exe => mpi_exe ++ " -n " ++ pretty num_cores ++ " " ++ sparc_exe
                  | None => sparc_exe
                  end in
                warn (inferred_warning command_env);;
                mret command_env
            end
        | Some command_env => mret command_env
        end;
      update_self (set_command (Some command_env))
  | Some _ => mret tt
  end;;
  self ← get_self;
  mret (default "None" (command self) ++ " " ++ extras).

(** [execute()]. *)
Definition execute : M obj unit :=
  self ← get_self;
  let extras := "-name " ++ label self in
  command ← _make_command (inr extras);
  self ← get_self;
  match subprocess_run command (directory self) with
  | inl err =>
      let msg := "Failed to execute " ++ dquote ++ command ++ dquote in
      raise EnvironmentError msg
  | inr returncode =>
      update_self (set_proc (Some returncode));;
      let errorcode := returncode in
      if 0 <? errorcode then
        let msg := "SPARC failed with command " ++ command
                   ++ "with error code " ++ pretty errorcode in
        raise CalculationFailed msg
      else mret tt
  end.

(** [_extract_static_results()]. *)
Definition _extract_static_results : M obj unit :=
  self ← get_self;
  let static_results := default ∅ (static (raw_results self)) in
  (if dict_contains static_results "free energy" then
     v ← dict_getitem static_results "free energy";
     store_result "energy" v;;
     v ← dict_getitem static_results "free energy";
     store_result "free energy" v
   else mret tt);;
  (if dict_contains static_results "forces" then
     v ← dict_getitem static_results "forces";
     store_result "forces" v
   else mret tt);;
  (if dict_contains static_results "stress" then
     v ← dict_getitem static_results "stress";
     store_result "stress" v
   else mret tt);;
  mret tt.

(** [get_last_ionic_step()]. *)
Definition get_last_ionic_step : M obj ionic_step :=
  self ← get_self;
  let out_results := default empty_out (out (raw_results self)) in
  let ionic_steps := default [] (ionic_steps out_results) in
  if 0 <? Z.of_nat (length ionic_steps) then py_getitem ionic_steps (-1)
  else mret ∅.

(** [_extract_out_results()]. *)
Definition _extract_out_results : M obj unit :=
  last_step ← get_last_ionic_step;
  (if dict_contains last_step "fermi level" then
     fermi ← dict_getitem last_step "fermi level";
     let value := value fermi in
     fermi ← dict_getitem last_step "fermi level";
     let unit := unit_str fermi in
     if decide (lower unit = "ev") then store_result "fermi" (PyFloat value)
     else if decide (lower unit = "hartree") then
       store_result "fermi" (PyFloat (PrimFloat.mul value Hartree))
     else raise ValueError "Wrong unit in Fermi!"
   else mret tt);;
  mret tt.

(** [read_results()]; [raw_result_dict] is what
    [self.sparc_bundle.read_results()] returned. *)
Definition read_results (raw_result_dict : raw_results_dict) : M obj unit :=
  update_self (set_raw_results raw_result_dict);;
  self ← get_self;
  (if bool_decide (is_Some (static (raw_results self))) then _extract_static_results
   else if bool_decide (is_Some (geopt (raw_results self))) then _extract_geopt_results
   else
     called ← py_call_dict (raw_results self);
     if bool_decide (is_Some (aimd called)) then _extract_aimd_results
     else raise CalculationFailed "Cannot read SPARC output!");;
  _extract_out_results.

(** [get_fermi_level()]; [None] is Python's [None]. *)
Definition get_fermi_level : M obj (option pyval) :=
  self ← get_self;
  mret (results self !! "fermi").

(** The loop of [_sanitize_kwargs] over [kwargs.items()]. *)
Fixpoint sanitize_items (items : list (string * pyval))
    (valid_params special_params : gmap string pyval)
    : M obj (gmap string pyval * gmap string pyval) :=
  match items with
  | [] => mret (valid_params, special_params)
  | (key, value) :: items =>
      if bool_decide (key ∈ special_inputs) then
        sanitize_items items valid_params (<[key := value]> special_params)
      else
        let key := upper key in
        (if dict_contains valid_params key then
           warn (repeated_warning key)
         else mret tt);;
        if validate_input key value then
          sanitize_items items (<[key := value]> valid_params) special_params
        else
          warn (rejected_warning key);;
          sanitize_items items valid_params special_params
  end.

(** [_sanitize_kwargs(kwargs)]; the result is the pair
    [(valid_params, special_params)]. What it prints is left out. *)
Definition _sanitize_kwargs (kwargs : list (string * pyval))
    : M obj (gmap string pyval * gmap string pyval) :=
  let valid_params := ∅ in
  let special_params := ∅ in
  sanitize_items kwargs valid_params special_params.

(** The five translations of [_convert_special_params], each from the local
    [params] and [converted_sparc_params] to their new values. *)
Abbreviation conversion := (M obj (gmap string pyval * gmap string pyval)).

Definition convert_xc (params converted_sparc_params : gmap string pyval) : conversion :=
  if dict_contains params "xc" then
    '(xc, params) ← dict_pop params "xc";
    xc_lower ← py_lower xc;
    if decide (xc_lower = "pbe") then
      mret (params, <["EXCHANGE_CORRELATION" := PyStr "GGA_PBE"]> converted_sparc_params)
    else
      xc_lower ← py_lower xc;
      if decide (xc_lower = "lda") then
        mret (params, <["EXCHANGE_CORRELATION" := PyStr "LDA_PW"]> converted_sparc_params)
      else mret (params, converted_sparc_params)
  else mret (params, converted_sparc_params).

Definition convert_h (atoms : option Atoms)
    (params converted_sparc_params : gmap string pyval) : conversion :=
  if dict_contains params "h" then
    (if dict_contains params "gpts" then
       raise KeyError "h and gpts cannot be provided together in SPARC calculator!"
     else mret tt);;
    '(h, params) ← dict_pop params "h";
    match atoms with
    | None => raise ValueError "Must have an active atoms object to convert h --> gpts!"
    | Some atoms =>
        let gpts := h2gpts h (cell atoms) in
        mret (<["gpts" := gpts]> params, converted_sparc_params)
    end
  else mret (params, converted_sparc_params).

(** The shape shared by the translations of [gpts], [kpts] and [nbands]:
    pop [name] and store it under [keyword] when the validator accepts it. *)
Definition convert_validated (name keyword : string)
    (params converted_sparc_params : gmap string pyval) : conversion :=
  if dict_contains params name then
    '(v, params) ← dict_pop params name;
    if validate_input keyword v then
      mret (params, <[keyword := v]> converted_sparc_params)
    else
      raise ValueError ("Input parameter " ++ name ++ " has invalid value " ++ py_str v)
  else mret (params, converted_sparc_params).

Definition convert_gpts := convert_validated "gpts" "FD_GRID".
Definition convert_kpts := convert_validated "kpts" "KPOINT_GRID".
Definition convert_nbands := convert_validated "nbands" "NSTATES".

(** [_convert_special_params(atoms)]. *)
Definition _convert_special_params (atoms : option Atoms) : M obj (gmap string pyval) :=
  let converted_sparc_params := ∅ in
  self ← get_self;
  let params := special_params self in
  '(params, converted_sparc_params) ← convert_xc params converted_sparc_params;
  '(params, converted_sparc_params) ← convert_h atoms params converted_sparc_params;
  '(params, converted_sparc_params) ← convert_gpts params converted_sparc_params;
  '(params, converted_sparc_params) ← convert_kpts params converted_sparc_params;
  '(params, converted_sparc_params) ← convert_nbands params converted_sparc_params;
  mret converted_sparc_params.

(** *** Construction, input files and the whole calculation *)

Definition set_label (l : string) (o : obj) : obj :=
  {| command := command o; label := l; directory := directory o;
     valid_params := valid_params o; special_params := special_params o;
     raw_results := raw_results o; results := results o; proc := proc o |}.

Definition set_directory (d : string) (o : obj) : obj :=
  {| command := command o; label := label o; directory := d;
     valid_params := valid_params o; special_params := special_params o;
     raw_results := raw_results o; results := results o; proc := proc o |}.

Definition set_params (valid special : gmap string pyval) (o : obj) : obj :=
  {| command := command o; label := label o; directory := directory o;
     valid_params := valid; special_params := special;
     raw_results := raw_results o; results := results o; proc := proc o |}.

(** The collaborators of the calculator. Of the base classes:
    [FileIOCalculator.__init__(label, atoms, command, kwargs)],
    [FileIOCalculator.write_input(atoms)], [Calculator.calculate(atoms)] and
    [self.atoms], which the base class keeps. Of the bundle:
    [_write_ion_and_inpt(atoms, label, ..., input_parameters)], whose other
    arguments are constants, and [read_results()]. The arguments [restart],
    [properties] and [system_changes], which the calculator only passes on
    to the base classes, are left out. *)
Record collaborators : Type := Collaborators {
  base_init :
    option string -> option Atoms -> option string -> list (string * pyval) -> M obj unit;
  base_write_input : option Atoms -> M obj unit;
  base_calculate : option Atoms -> M obj unit;
  self_atoms : obj -> option Atoms;
  write_ion_and_inpt : option Atoms -> string -> gmap string pyval -> M obj unit;
  bundle_read_results : M obj raw_results_dict
}.

Variable host : collaborators.

(** The properties [directory] and [label] of the base class, as their
    setters: an assignment to [self.directory] or [self.label] runs the
    setter, and the setter of [label] assigns the directory too. With them,
    the constructor [SparcBundle(directory, atoms, label, psp_dir)], whose
    mode is a constant. *)
Record base_properties : Type := BaseProperties {
  assign_directory : string -> M obj unit;
  assign_label : string -> M obj unit;
  create_bundle : string -> option Atoms -> string -> option string -> M obj unit
}.

Variable base : base_properties.

(** [_detect_sparc_version()]. *)
Definition _detect_sparc_version : M obj (option string) := mret None.

(** [__init__(directory, label, atoms, command, psp_dir, kwargs)], on the
    attributes of [obj]; the bundle it creates and the version it detects
    are attributes outside [obj]. The directory and the label are assigned
    through the setters of the base class, and the bundle is made from the
    directory and the label the calculator has after them. *)
Definition __init__ (directory : string) (label : option string) (atoms : option Atoms)
    (command : option string) (psp_dir : option string) (kwargs : list (string * pyval)) :
    M obj unit :=
  base_init host label atoms command kwargs;;
  assign_directory base directory;;
  assign_label base (match label with Some l => l | None => "SPARC" end);;
  self ← get_self;
  create_bundle base (SPARC.directory self) atoms (SPARC.label self) psp_dir;;
  _ ← _detect_sparc_version;
  '(valid_params, special_params) ← _sanitize_kwargs kwargs;
  update_self (set_params valid_params special_params);;
  update_self (set_raw_results empty_raw).

(** [write_input(atoms)]: [update] lets the entries of [valid_params]
    replace the converted ones with the same key. *)
Definition write_input (atoms : option Atoms) : M obj unit :=
  base_write_input host atoms;;
  converted_params ← _convert_special_params atoms;
  let input_parameters := converted_params in
  self ← get_self;
  let input_parameters := valid_params self ∪ input_parameters in
  self ← get_self;
  write_ion_and_inpt host atoms (label self) input_parameters.

(** [read_results()] as the calculation calls it, on what the bundle reads. *)
Definition read_bundle_results : M obj unit :=
  raw_result_dict ← bundle_read_results host;
  read_results raw_result_dict.

(** [calculate(atoms)]. *)
Definition calculate (atoms : option Atoms) : M obj unit :=
  base_calculate host atoms;;
  self ← get_self;
  write_input (self_atoms host self);;
  execute;;
  read_bundle_results.

(** ** Definitions used in the statements

    The first ones say in the words of the specification what a method should
    give; the others name parts of a result or of a method. *)

(** The last ionic step of the raw results when there is one, the empty
    dictionary otherwise. *)
Definition last_step_of (raw : raw_results_dict) : ionic_step :=
  match out raw with
  | Some o =>
      match ionic_steps o with
      | Some steps => List.last steps ∅
      | None => ∅
      end
  | None => ∅
  end.

(** The four properties [_extract_static_results] may set. *)
Definition static_properties : list string :=
  ["energy"; "free energy"; "forces"; "stress"].

(** The extras as [_make_command] appends them: joined by spaces when given
    as a list or tuple, stripped when given as a string. *)
Definition extras_string (extras : list string + string) : string :=
  match extras with
  | inl parts => join " " parts
  | inr s => strip s
  end.

Definition set_special_params (p : gmap string pyval) (o : obj) : obj :=
  {| command := command o; label := label o; directory := directory o;
     valid_params := valid_params o; special_params := p;
     raw_results := raw_results o; results := results o; proc := proc o |}.

(** The same calculator and warnings, with [self.special_params] replaced. *)
Definition with_special_params (p : gmap string pyval) (w : world obj) : world obj :=
  World (set_special_params p (self w)) (warnings w).

Definition outcome_map {A B} (f : A -> B) (o : outcome A) : outcome B :=
  match o with
  | Returned a => Returned (f a)
  | Raised e => Raised e
  end.

(** The translations that follow the one of [xc]. *)
Definition convert_after_xc (atoms : option Atoms)
    (params converted_sparc_params : gmap string pyval) : M obj (gmap string pyval) :=
  '(params, converted_sparc_params) ← convert_h atoms params converted_sparc_params;
  '(params, converted_sparc_params) ← convert_gpts params converted_sparc_params;
  '(params, converted_sparc_params) ← convert_kpts params converted_sparc_params;
  '(params, converted_sparc_params) ← convert_nbands params converted_sparc_params;
  mret converted_sparc_params.

(** The translations that follow the one of [h]. *)
Definition convert_after_h
    (params converted_sparc_params : gmap string pyval) : M obj (gmap string pyval) :=
  '(params, converted_sparc_params) ← convert_gpts params converted_sparc_params;
  '(params, converted_sparc_params) ← convert_kpts params converted_sparc_params;
  '(params, converted_sparc_params) ← convert_nbands params converted_sparc_params;
  mret converted_sparc_params.

Definition attribute_error : exn := Exn AttributeError "object has no attribute 'lower'".

(** The keywords the translations after [xc] may set. *)
Definition grid_keywords : list string := ["FD_GRID"; "KPOINT_GRID"; "NSTATES"].

(** The parameters translated after ["xc"]. *)
Definition grid_inputs : list string := ["h"; "gpts"; "kpts"; "nbands"].

(** The value of ["xc"], when given, is a string. *)
Definition xc_is_str (params : gmap string pyval) : Prop :=
  forall v, params !! "xc" = Some v -> exists s, v = PyStr s.

(** What the translation of ["xc"] contributes. *)
Definition xc_keyword (xc : option pyval) : gmap string pyval :=
  match xc with
  | Some (PyStr s) =>
      if decide (lower s = "pbe") then {["EXCHANGE_CORRELATION" := PyStr "GGA_PBE"]}
      else if decide (lower s = "lda") then {["EXCHANGE_CORRELATION" := PyStr "LDA_PW"]}
      else ∅
  | _ => ∅
  end.

(** The keys handed to the validator, in the order of the items: the keys
    that are not special, in upper case. *)
Fixpoint passed_keys (items : list (string * pyval)) : list string :=
  match items with
  | [] => []
  | (key, _) :: items =>
      if bool_decide (key ∈ special_inputs) then passed_keys items
      else upper key :: passed_keys items
  end.

(** The partition of the keyword arguments, as the specification words it:
    the call returns a pair of dictionaries and raises nothing; an item with
    a special key is in [special_params] as it was given; an item with
    another key is in [valid_params] under its upper-case key exactly when
    the validator accepts it, and when the validator rejects it neither
    dictionary has an entry for it and a warning names the key; and the two
    dictionaries hold nothing else. *)
Definition sanitize_partitions (kwargs : list (string * pyval)) : Prop :=
  forall w, exists valid_params special_params issued,
    _sanitize_kwargs kwargs w
    = (Returned (valid_params, special_params), World (self w) (warnings w ++ issued))
    /\ (forall key value, (key, value) ∈ kwargs ->
          (key ∈ special_inputs -> special_params !! key = Some value)
          /\ (key ∉ special_inputs ->
               (valid_params !! upper key = Some value
                <-> validate_input (upper key) value = true)
               /\ (validate_input (upper key) value = false ->
                    valid_params !! upper key = None
                    /\ special_params !! key = None
                    /\ rejected_warning (upper key) ∈ issued)))
    /\ (forall key value, special_params !! key = Some value ->
          (key, value) ∈ kwargs /\ key ∈ special_inputs)
    /\ (forall key value, valid_params !! key = Some value ->
          exists key', (key', value) ∈ kwargs /\ (key' ∉ special_inputs)
                       /\ upper key' = key /\ validate_input key value = true).

(** The two dictionaries the loop ends with, without the warnings. *)
Fixpoint sanitized (items : list (string * pyval))
    (valid_params special_params : gmap string pyval)
    : gmap string pyval * gmap string pyval :=
  match items with
  | [] => (valid_params, special_params)
  | (key, value) :: items =>
      if bool_decide (key ∈ special_inputs) then
        sanitized items valid_params (<[key := value]> special_params)
      else if validate_input (upper key) value then
        sanitized items (<[upper key := value]> valid_params) special_params
      else sanitized items valid_params special_params
  end.

(** What [_extract_static_results] leaves in [self.results], from the
    static results [st] and the results [old] it finds. *)
Definition static_stored (st old : gmap string pyval) : gmap string pyval :=
  let r1 := match st !! "free energy" with
            | Some v => <["free energy" := v]> (<["energy" := v]> old)
            | None => old
            end in
  let r2 := match st !! "forces" with Some v => <["forces" := v]> r1 | None => r1 end in
  match st !! "stress" with Some v => <["stress" := v]> r2 | None => r2 end.

(** The Fermi level in eV of a parsed quantity, when its unit is known. *)
Definition fermi_in_ev (fermi : quantity) : option pyval :=
  if decide (lower (unit_str fermi) = "ev") then Some (PyFloat (value fermi))
  else if decide (lower (unit_str fermi) = "hartree") then
    Some (PyFloat (PrimFloat.mul (value fermi) Hartree))
  else None.

(** The warnings the loop of [_sanitize_kwargs] issues, in order. *)
Fixpoint sanitize_warnings (items : list (string * pyval))
    (valid_params : gmap string pyval) : list string :=
  match items with
  | [] => []
  | (key, value) :: items =>
      if bool_decide (key ∈ special_inputs) then sanitize_warnings items valid_params
      else
        (if dict_contains valid_params (upper key) then [repeated_warning (upper key)] else [])
        ++ (if validate_input (upper key) value then
              sanitize_warnings items (<[upper key := value]> valid_params)
            else rejected_warning (upper key) :: sanitize_warnings items valid_params)
  end%list.

Definition outcome_bind {A B} (o : outcome A) (k : A -> outcome B) : outcome B :=
  match o with
  | Returned a => k a
  | Raised e => Raised e
  end.

(** One validated translation: the value, when given, goes under [keyword]
    if the validator accepts it, and is an error otherwise. *)
Definition validated_entry (name keyword : string) (v : option pyval)
    (converted : gmap string pyval) : outcome (gmap string pyval) :=
  match v with
  | None => Returned converted
  | Some v =>
      if validate_input keyword v then Returned (<[keyword := v]> converted)
      else Raised (Exn ValueError
                     ("Input parameter " ++ name ++ " has invalid value " ++ py_str v))
  end.

(** The grid points the translation works with: those given, or those
    computed from the spacing [h]. *)
Definition grid_points (atoms : option Atoms) (h gpts : option pyval)
    : outcome (option pyval) :=
  match h with
  | None => Returned gpts
  | Some h =>
      match gpts with
      | Some _ =>
          Raised (Exn KeyError "h and gpts cannot be provided together in SPARC calculator!")
      | None =>
          match atoms with
          | None =>
              Raised (Exn ValueError "Must have an active atoms object to convert h --> gpts!")
          | Some atoms => Returned (Some (h2gpts h (cell atoms)))
          end
      end
  end.

(** The translation as a function of the five parameters it reads. *)
Definition translated (atoms : option Atoms) (xc h gpts kpts nbands : option pyval)
    : outcome (gmap string pyval) :=
  outcome_bind
    (match xc with
     | Some (PyStr _) | None => Returned (xc_keyword xc)
     | Some _ => Raised attribute_error
     end)
    (fun converted =>
       outcome_bind (grid_points atoms h gpts) (fun gpts =>
       outcome_bind (validated_entry "gpts" "FD_GRID" gpts converted) (fun converted =>
       outcome_bind (validated_entry "kpts" "KPOINT_GRID" kpts converted) (fun converted =>
       validated_entry "nbands" "NSTATES" nbands converted)))).

(** The parameters the translation reads. *)
Definition translated_inputs : list string := ["xc"; "h"; "gpts"; "kpts"; "nbands"].

(** A dictionary with [v], when given, stored under [keyword]. *)
Definition with_entry (keyword : string) (v : option pyval)
    (converted : gmap string pyval) : gmap string pyval :=
  match v with
  | Some v => <[keyword := v]> converted
  | None => converted
  end.

(** What [_make_command] leaves alone. *)
Definition same_but_command (o o' : obj) : Prop :=
  label o' = label o /\ directory o' = directory o
  /\ valid_params o' = valid_params o /\ special_params o' = special_params o
  /\ raw_results o' = raw_results o /\ results o' = results o /\ proc o' = proc o.

(** The translation of ["h"], as the specification words it, for every set
    of special parameters: ["h"] with ["gpts"] raises [KeyError]; ["h"]
    without atoms raises [ValueError]; ["h"] alone with atoms ends as the
    value of [h2gpts] under ["FD_GRID"]. *)
Definition convert_h_as_stated : Prop :=
  forall (atoms : option Atoms) (w : world obj) (h : pyval),
    let params := special_params (self w) in
    params !! "h" = Some h ->
    (is_Some (params !! "gpts") ->
       exists msg, fst (_convert_special_params atoms w) = Raised (Exn KeyError msg))
    /\ (atoms = None ->
        exists msg, fst (_convert_special_params atoms w) = Raised (Exn ValueError msg))
    /\ (params !! "gpts" = None -> forall a, atoms = Some a ->
        forall d, fst (_convert_special_params atoms w) = Returned d ->
                  d !! "FD_GRID" = Some (h2gpts h (cell a))).

(** The discarding of ["xc"], as the specification words it, for every value
    of ["xc"] that is not ["pbe"] or ["lda"] in some letter case, a string or
    not: the translation behaves as it does without ["xc"], no dictionary
    returned has the key ["EXCHANGE_CORRELATION"], and with nothing else to
    translate the empty dictionary is returned. *)
Definition convert_xc_as_stated : Prop :=
  forall (atoms : option Atoms) (w : world obj) (xc : pyval),
    special_params (self w) !! "xc" = Some xc ->
    (forall s, xc = PyStr s -> lower s <> "pbe" /\ lower s <> "lda") ->
    fst (_convert_special_params atoms w)
    = fst (_convert_special_params atoms
             (with_special_params (delete "xc" (special_params (self w))) w))
    /\ snd (_convert_special_params atoms w) = w
    /\ (forall d, fst (_convert_special_params atoms w) = Returned d ->
                  d !! "EXCHANGE_CORRELATION" = None)
    /\ ((forall key, key ∈ grid_inputs -> special_params (self w) !! key = None) ->
        _convert_special_params atoms w = (Returned ∅, w)).

(** ** Concrete calculators, for the examples *)

(** A calculator as [__init__] leaves it when no command and no parameter is
    given, and the world in which no warning was issued yet. *)
Definition fresh : obj :=
  {| command := None; label := "SPARC"; directory := ".";
     valid_params := ∅; special_params := ∅;
     raw_results := empty_raw; results := ∅; proc := None |}.

Definition fresh_world : world obj := World fresh [].

(** A validator that rejects [None] and strings and accepts the rest. *)
Definition example_validator (key : string) (v : pyval) : bool :=
  match v with
  | PyNone | PyStr _ => false
  | _ => true
  end.

(** A grid of 25 points along each axis, whatever the spacing and the cell. *)
Definition example_h2gpts (h : pyval) (c : unit) : pyval :=
  PySeq [PyInt 25; PyInt 25; PyInt 25].

Definition example_py_str (v : pyval) : string := "...".

(** The sparc executable alone, and with an MPI launcher on four cores. *)
Definition found_serial : option string * option string * Z := (Some "sparc", None, 1).
Definition found_parallel : option string * option string * Z :=
  (Some "sparc", Some "mpirun", 4).

(** A subprocess that completes with the given return code. *)
Definition completes_with (returncode : Z) (command cwd : string) : string + Z :=
  inr returncode.

(** Raw results of a relaxation whose last ionic step reports the Fermi
    level in Hartree. *)
Definition fermi_in_hartree : quantity := {| value := 0.5; unit_str := "Hartree" |}.

Definition raw_with_fermi : raw_results_dict :=
  {| static := None; geopt := None; aimd := None;
     out := Some {| ionic_steps := Some [∅; {["fermi level" := fermi_in_hartree]}] |} |}.

Definition world_with_fermi : world obj := World (set_raw_results raw_with_fermi fresh) [].

(** Keyword arguments with a special key, an accepted value and a rejected
    one; and keyword arguments with two keys that differ in letter case only,
    the first accepted and the second rejected. *)
Definition example_kwargs : list (string * pyval) :=
  [("xc", PyStr "pbe"); ("tol_scf", PyFloat 0.001); ("mixing", PyNone)].

Definition clashing_kwargs : list (string * pyval) :=
  [("tol", PyInt 1); ("TOL", PyNone)].

(** Calculators with special parameters. *)
Definition world_with_params (p : gmap string pyval) : world obj :=
  with_special_params p fresh_world.

(** Collaborators that do nothing: the base class has no atoms and the
    bundle reads empty raw results. *)
Definition idle_host : collaborators :=
  {| base_init := fun _ _ _ _ => mret tt;
     base_write_input := fun _ => mret tt;
     base_calculate := fun _ => mret tt;
     self_atoms := fun _ => None;
     write_ion_and_inpt := fun _ _ _ => mret tt;
     bundle_read_results := mret empty_raw |}.

(** Setters that keep the directory given and, for a label without a
    directory part, keep the label and put the directory back to the current
    one; the bundle is made without an error. *)
Definition plain_label_setters : base_properties :=
  {| assign_directory := fun d => update_self (set_directory d);
     assign_label := fun l => update_self (fun o => set_label l (set_directory "." o));
     create_bundle := fun _ _ _ _ => mret tt |}.

(** A subprocess that cannot be started. *)
Definition cannot_start (command cwd : string) : string + Z :=
  inl "No such file or directory".

(** Raw results of a static calculation with the energy, and the Fermi level
    in the unit given. *)
Definition raw_static (fermi_unit : string) : raw_results_dict :=
  {| static := Some {["free energy" := PyFloat 1.5]}; geopt := None; aimd := None;
     out := Some {| ionic_steps :=
                      Some [{["fermi level" := {| value := 0.25; unit_str := fermi_unit |}]}] |} |}.

(** Three spellings of one keyword, of which only the second has an accepted
    value. *)
Definition spelled_kwargs : list (string * pyval) :=
  [("tol", PyNone); ("TOL", PyInt 1); ("Tol", PyNone)].

(** A calculator with parameters of both kinds. *)
Definition world_with_both (valid special : gmap string pyval) : world obj :=
  World (set_params valid special fresh) [].

(** ** Running a computation *)

Ltac run_monad :=
  unfold mbind, M_bind, bind, mret, M_ret, ret, get_self, update_self, raise, warn in *;
  cbv beta iota; cbn [self warnings].

Lemma run_bind {A B} (m : M obj A) (k : A -> M obj B) (w : world obj) :
  (m ≫= k) w =
  match m w with
  | (Returned a, w') => k a w'
  | (Raised e, w') => (Raised e, w')
  end.
Proof. reflexivity. Qed.

Lemma run_ret {A} (a : A) (w : world obj) : (mret a : M obj A) w = (Returned a, w).
Proof. reflexivity. Qed.

Lemma dict_contains_Some {V} (d : gmap string V) (k : string) (v : V) :
  d !! k = Some v -> dict_contains d k = true.
Proof. intros E. unfold dict_contains. apply bool_decide_eq_true. eauto. Qed.

Lemma dict_contains_None {V} (d : gmap string V) (k : string) :
  d !! k = None -> dict_contains d k = false.
Proof.
  intros E. unfold dict_contains. apply bool_decide_eq_false.
  rewrite E. intros [v Hv]. discriminate.
Qed.

Lemma dict_getitem_Some {V} (d : gmap string V) (k : string) (v : V) (w : world obj) :
  d !! k = Some v -> dict_getitem d k w = (Returned v, w).
Proof. intros E. unfold dict_getitem. rewrite E. reflexivity. Qed.

Lemma store_result_run (key : string) (v : pyval) (w : world obj) :
  store_result key v w =
  (Returned tt, World (set_results (<[key := v]> (results (self w))) (self w)) (warnings w)).
Proof. reflexivity. Qed.

Lemma world_eta (w : world obj) : World (self w) (warnings w) = w.
Proof. destruct w; reflexivity. Qed.

Lemma set_results_id (o : obj) : set_results (results o) o = o.
Proof. destruct o; reflexivity. Qed.

Lemma results_set_results (r : gmap string pyval) (o : obj) : results (set_results r o) = r.
Proof. reflexivity. Qed.

Lemma set_results_twice (r r' : gmap string pyval) (o : obj) :
  set_results r' (set_results r o) = set_results r' o.
Proof. reflexivity. Qed.

(** ** Extraction of the static results *)

(** C7. [_extract_static_results] always returns; it changes nothing but
    [self.results], where ["energy"] and ["free energy"] become the static
    ["free energy"], ["forces"] the static forces and ["stress"] the static
    stress, each only when the static results have that entry; a property
    whose entry is absent keeps its value, and so does every property other
    than these four. *)
Theorem extract_static_results_frame (w : world obj) :
  exists res : gmap string pyval,
    _extract_static_results w
    = (Returned tt, World (set_results res (self w)) (warnings w))
    /\ let static_results := default ∅ (static (raw_results (self w))) in
       let old := results (self w) in
       res !! "energy" = from_option Some (old !! "energy") (static_results !! "free energy")
       /\ res !! "free energy"
          = from_option Some (old !! "free energy") (static_results !! "free energy")
       /\ res !! "forces" = from_option Some (old !! "forces") (static_results !! "forces")
       /\ res !! "stress" = from_option Some (old !! "stress") (static_results !! "stress")
       /\ forall key, key ∉ static_properties -> res !! key = old !! key.
Proof.
  unfold _extract_static_results.
  rewrite run_bind. unfold get_self at 1. cbv beta iota zeta.
  set (st := default ∅ (static (raw_results (self w)))).
  set (old := results (self w)).
  exists
    (let r1 := match st !! "free energy" with
               | Some v => <["free energy" := v]> (<["energy" := v]> old)
               | None => old
               end in
     let r2 := match st !! "forces" with Some v => <["forces" := v]> r1 | None => r1 end in
     match st !! "stress" with Some v => <["stress" := v]> r2 | None => r2 end).
  split.
  - rewrite !run_bind.
    destruct (st !! "free energy") as [e|] eqn:Ee;
      destruct (st !! "forces") as [f|] eqn:Ef;
      destruct (st !! "stress") as [t|] eqn:Et;
      rewrite ?(dict_contains_Some _ _ _ Ee), ?(dict_contains_None _ _ Ee),
        ?(dict_contains_Some _ _ _ Ef), ?(dict_contains_None _ _ Ef),
        ?(dict_contains_Some _ _ _ Et), ?(dict_contains_None _ _ Et);
      repeat (rewrite ?run_bind, ?run_ret, ?(dict_getitem_Some _ _ _ _ Ee),
               ?(dict_getitem_Some _ _ _ _ Ef), ?(dict_getitem_Some _ _ _ _ Et),
               ?store_result_run; cbv beta iota zeta; cbn [self warnings]);
      rewrite ?set_results_twice, ?results_set_results; subst old;
      rewrite ?set_results_id, ?world_eta; reflexivity.
  - cbv zeta.
    destruct (st !! "free energy") as [e|]; destruct (st !! "forces") as [f|];
      destruct (st !! "stress") as [t|]; cbn [from_option];
      repeat split;
      try (intros key Hkey; unfold static_properties in Hkey;
           rewrite !not_elem_of_cons in Hkey; destruct Hkey as (? & ? & ? & ? & _));
      rewrite ?lookup_insert_eq; try reflexivity;
      repeat (rewrite lookup_insert_ne by (try congruence; discriminate));
      rewrite ?lookup_insert_eq; reflexivity.
Qed.

(** ** The last ionic step and the Fermi level *)

Lemma py_getitem_last {A} (l : list A) (d : A) (w : world obj) :
  l <> [] -> py_getitem l (-1) w = (Returned (List.last l d), w).
Proof.
  intros Hl. unfold py_getitem. cbv zeta.
  assert (Hlen : (0 < length l)%nat) by (destruct l; [congruence | simpl; lia]).
  replace (-1 <? 0) with true by reflexivity.
  destruct ((-1 + Z.of_nat (length l) <? 0) || (Z.of_nat (length l) <=? -1 + Z.of_nat (length l)))
    eqn:Hb.
  - apply orb_prop in Hb. destruct Hb as [Hb | Hb]; [apply Z.ltb_lt in Hb | apply Z.leb_le in Hb]; lia.
  - replace (Z.to_nat (-1 + Z.of_nat (length l))) with (pred (length l)) by lia.
    rewrite <- last_lookup.
    destruct (last l) as [x|] eqn:Hx.
    + rewrite run_ret. do 2 f_equal.
      clear Hb Hlen Hl. revert x Hx. induction l as [|a l IH]; intros x Hx; [discriminate|].
      destruct l as [|b l]; [injection Hx as ->; reflexivity|].
      change (List.last (a :: b :: l) d) with (List.last (b :: l) d).
      apply IH. exact Hx.
    + apply last_None in Hx. congruence.
Qed.

(** [get_last_ionic_step], step by step. *)
Lemma get_last_ionic_step_run (w : world obj) :
  get_last_ionic_step w = (Returned (last_step_of (raw_results (self w))), w).
Proof.
  unfold get_last_ionic_step, last_step_of.
  rewrite run_bind. unfold get_self. cbv beta iota zeta.
  destruct (out (raw_results (self w))) as [[[steps|]]|]; try reflexivity.
  change (default empty_out (Some {| ionic_steps := Some steps |})) with (OutResults (Some steps)).
  change (default [] (ionic_steps {| ionic_steps := Some steps |})) with steps.
  cbn [ionic_steps].
  destruct steps as [|step steps]; [reflexivity|].
  replace (0 <? Z.of_nat (length (step :: steps))) with true
    by (symmetry; apply Z.ltb_lt; simpl; lia).
  apply py_getitem_last. discriminate.
Qed.

(** C9. [get_last_ionic_step] returns for every raw-results dictionary,
    leaves the calculator as it was and gives the last ionic step when there
    is one and the empty dictionary otherwise, also when the ["out"] entry or
    its ["ionic_steps"] entry is missing or the list is empty: the index
    [-1] is never out of range. *)
Theorem get_last_ionic_step_total (w : world obj) :
  get_last_ionic_step w = (Returned (last_step_of (raw_results (self w))), w).
Proof. apply get_last_ionic_step_run. Qed.

(** C6. [_extract_out_results] reads the Fermi level of the last ionic step.
    With the unit ["ev"] in any letter case the value is stored unchanged
    under ["fermi"]; with ["hartree"] it is stored multiplied by [Hartree];
    with any other unit a [ValueError] is raised and nothing is stored; and
    when the last step has no ["fermi level"] entry the call returns and the
    calculator is left as it was. *)
Theorem extract_out_results_fermi (w : world obj) :
  let last_step := last_step_of (raw_results (self w)) in
  let store v := World (set_results (<["fermi" := v]> (results (self w))) (self w)) (warnings w) in
  (forall fermi, last_step !! "fermi level" = Some fermi ->
     (lower (unit_str fermi) = "ev" ->
        _extract_out_results w = (Returned tt, store (PyFloat (value fermi))))
     /\ (lower (unit_str fermi) = "hartree" ->
        _extract_out_results w
        = (Returned tt, store (PyFloat (PrimFloat.mul (value fermi) Hartree))))
     /\ (lower (unit_str fermi) <> "ev" -> lower (unit_str fermi) <> "hartree" ->
        _extract_out_results w = (Raised (Exn ValueError "Wrong unit in Fermi!"), w)))
  /\ (last_step !! "fermi level" = None -> _extract_out_results w = (Returned tt, w)).
Proof.
  cbv zeta. unfold _extract_out_results.
  rewrite run_bind, get_last_ionic_step_run.
  set (last_step := last_step_of (raw_results (self w))).
  split.
  - intros fermi E.
    rewrite !run_bind, (dict_contains_Some _ _ _ E), !run_bind, (dict_getitem_Some _ _ _ _ E).
    cbv beta iota zeta. rewrite run_bind, (dict_getitem_Some _ _ _ _ E). cbv beta iota zeta.
    repeat split.
    + intros Hev. rewrite decide_True by exact Hev. rewrite store_result_run. reflexivity.
    + intros Hha. rewrite decide_False by (rewrite Hha; discriminate).
      rewrite decide_True by exact Hha. rewrite store_result_run. reflexivity.
    + intros Hev Hha. rewrite decide_False by exact Hev. rewrite decide_False by exact Hha.
      reflexivity.
  - intros E. rewrite !run_bind, (dict_contains_None _ _ E). reflexivity.
Qed.

(** ** Dispatch on the calculation mode *)

(** C1. What [read_results] does when the raw results have neither a
    ["static"] nor a ["geopt"] entry, whatever the ["aimd"] and ["out"]
    entries are: the test for ["aimd"] calls the dictionary, so a [TypeError]
    is raised. The branch for ["aimd"] is not taken and [CalculationFailed]
    is not raised. *)
Theorem read_results_without_static_or_geopt
    (aimd_entry : option pyval) (out_entry : option out_results) (w : world obj) :
  let raw := {| static := None; geopt := None; aimd := aimd_entry; out := out_entry |} in
  read_results raw w
  = (Raised (Exn TypeError "'dict' object is not callable"),
     World (set_raw_results raw (self w)) (warnings w)).
Proof. reflexivity. Qed.

(** With a ["static"] entry the static branch runs, followed by the
    extraction from the [.out] results. *)
Lemma read_results_static (raw : raw_results_dict) (w : world obj) :
  is_Some (static raw) ->
  read_results raw w
  = (_extract_static_results ≫= (fun _ => _extract_out_results))
      (World (set_raw_results raw (self w)) (warnings w)).
Proof.
  intros Hs. unfold read_results, mbind, M_bind, bind, update_self, get_self.
  cbn [self warnings]. change (raw_results (set_raw_results raw (self w))) with raw.
  rewrite bool_decide_eq_true_2 by exact Hs. reflexivity.
Qed.

(** Without a ["static"] entry and with a ["geopt"] entry the geometry
    optimisation branch runs. *)
Lemma read_results_geopt (raw : raw_results_dict) (w : world obj) :
  static raw = None -> is_Some (geopt raw) ->
  read_results raw w
  = (_extract_geopt_results ≫= (fun _ => _extract_out_results))
      (World (set_raw_results raw (self w)) (warnings w)).
Proof.
  intros Hs Hg. unfold read_results, mbind, M_bind, bind, update_self, get_self.
  cbn [self warnings]. change (raw_results (set_raw_results raw (self w))) with raw.
  rewrite bool_decide_eq_false_2 by (rewrite Hs; intros [? ?]; discriminate).
  rewrite bool_decide_eq_true_2 by exact Hg. reflexivity.
Qed.

(** ** The run command and the execution *)

(** C8. [_make_command] takes the command from [self.command] when it is set,
    otherwise from [$ASE_SPARC_COMMAND], otherwise from the executable found
    in the [PATH], behind the MPI launcher and the number of cores when a
    launcher is found; it raises [EnvironmentError] when none of the three
    gives a command. On success it returns the command, a space and the
    extras, and a command that was not set before is stored in
    [self.command]. *)
Theorem make_command_precedence (extras : list string + string) (w : world obj) :
  let ex := extras_string extras in
  let stored c ws := World (set_command (Some c) (self w)) (warnings w ++ ws) in
  (forall c, command (self w) = Some c ->
     _make_command extras w = (Returned (c ++ " " ++ ex), w))
  /\ (command (self w) = None ->
      (forall c, environ !! "ASE_SPARC_COMMAND" = Some c ->
         _make_command extras w = (Returned (c ++ " " ++ ex), stored c []))
      /\ (environ !! "ASE_SPARC_COMMAND" = None ->
          (forall sparc_exe mpi_exe num_cores,
             found_sparc = (Some sparc_exe, Some mpi_exe, num_cores) ->
             let c := mpi_exe ++ " -n " ++ pretty num_cores ++ " " ++ sparc_exe in
             _make_command extras w
             = (Returned (c ++ " " ++ ex), stored c [inferred_warning c]))
          /\ (forall sparc_exe num_cores,
             found_sparc = (Some sparc_exe, None, num_cores) ->
             _make_command extras w
             = (Returned (sparc_exe ++ " " ++ ex), stored sparc_exe [inferred_warning sparc_exe]))
          /\ (forall mpi_exe num_cores,
             found_sparc = (None, mpi_exe, num_cores) ->
             _make_command extras w = (Raised (Exn EnvironmentError no_setup_message), w)))).
Proof.
  cbv zeta. unfold _make_command, extras_string. run_monad.
  split; [| intros Hc; split; [| intros He; repeat split]].
  - intros c Hc. rewrite Hc. run_monad. rewrite Hc. reflexivity.
  - intros c He. rewrite Hc, He. run_monad. rewrite app_nil_r. reflexivity.
  - intros sparc_exe mpi_exe num_cores Hf. rewrite Hc, He, Hf. reflexivity.
  - intros sparc_exe num_cores Hf. rewrite Hc, He, Hf. reflexivity.
  - intros mpi_exe num_cores Hf. rewrite Hc, He, Hf. reflexivity.
Qed.

(** [_make_command] raises nothing but [EnvironmentError]. *)
Lemma make_command_raises (extras : list string + string) (w w' : world obj) (e : exn) :
  _make_command extras w = (Raised e, w') -> exn_kind e = EnvironmentError.
Proof.
  unfold _make_command. run_monad.
  destruct (command (self w)) as [c|]; [discriminate|].
  destruct (environ !! "ASE_SPARC_COMMAND") as [c|]; [discriminate|].
  destruct found_sparc as [[[sparc_exe|] mpi_exe] num_cores]; [discriminate|].
  intros H. injection H as <- _. reflexivity.
Qed.

(** [execute], step by step. *)
Lemma execute_run (w : world obj) :
  execute w =
  match _make_command (inr ("-name " ++ label (self w))) w with
  | (Returned cmd, w1) =>
      match subprocess_run cmd (directory (self w1)) with
      | inl _ =>
          (Raised (Exn EnvironmentError ("Failed to execute " ++ dquote ++ cmd ++ dquote)), w1)
      | inr returncode =>
          let w2 := World (set_proc (Some returncode) (self w1)) (warnings w1) in
          if 0 <? returncode then
            (Raised (Exn CalculationFailed
                       ("SPARC failed with command " ++ cmd
                        ++ "with error code " ++ pretty returncode)), w2)
          else (Returned tt, w2)
      end
  | (Raised e, w1) => (Raised e, w1)
  end.
Proof.
  unfold execute. run_monad.
  destruct (_make_command (inr ("-name " ++ label (self w))) w) as [[cmd|e] w1];
    [| reflexivity].
  destruct (subprocess_run cmd (directory (self w1))) as [err|returncode]; [reflexivity|].
  run_monad. destruct (0 <? returncode); reflexivity.
Qed.

(** C2. [execute] runs the command made by [_make_command] as a subprocess.
    When the process completes, [execute] raises [CalculationFailed] if its
    return code is greater than zero and returns nothing otherwise, the
    completed process being kept in [self.proc] either way; and
    [CalculationFailed] is raised in no other case. *)
Theorem execute_fails_on_positive_code (w : world obj) :
  let started := _make_command (inr ("-name " ++ label (self w))) w in
  (forall cmd w1 returncode,
     started = (Returned cmd, w1) ->
     subprocess_run cmd (directory (self w1)) = inr returncode ->
     let w2 := World (set_proc (Some returncode) (self w1)) (warnings w1) in
     (0 < returncode ->
        execute w
        = (Raised (Exn CalculationFailed
                     ("SPARC failed with command " ++ cmd
                      ++ "with error code " ++ pretty returncode)), w2))
     /\ (returncode <= 0 -> execute w = (Returned tt, w2)))
  /\ (forall msg, fst (execute w) = Raised (Exn CalculationFailed msg) ->
       exists cmd w1 returncode,
         started = (Returned cmd, w1)
         /\ subprocess_run cmd (directory (self w1)) = inr returncode
         /\ 0 < returncode).
Proof.
  cbv zeta. rewrite !execute_run. split.
  - intros cmd w1 returncode Hstart Hrun.
    rewrite Hstart, Hrun.
    split; intros Hrc.
    + replace (0 <? returncode) with true by (symmetry; apply Z.ltb_lt; exact Hrc).
      reflexivity.
    + replace (0 <? returncode) with false by (symmetry; apply Z.ltb_ge; exact Hrc).
      reflexivity.
  - intros msg.
    destruct (_make_command (inr ("-name " ++ label (self w))) w) as [[cmd|e] w1] eqn:Hstart.
    + destruct (subprocess_run cmd (directory (self w1))) as [err|returncode] eqn:Hrun.
      * cbn [fst]. discriminate.
      * destruct (0 <? returncode) eqn:Hrc; [| cbn [fst]; discriminate].
        intros _. exists cmd, w1, returncode. apply Z.ltb_lt in Hrc. auto.
    + apply make_command_raises in Hstart. cbn [fst]. intros H. injection H as ->.
      discriminate.
Qed.

(** ** Translation of the special parameters *)

Lemma convert_xc_run (params converted : gmap string pyval) (w : world obj) :
  convert_xc params converted w =
  (match params !! "xc" with
   | None => Returned (params, converted)
   | Some (PyStr s) =>
       if decide (lower s = "pbe") then
         Returned (delete "xc" params, <["EXCHANGE_CORRELATION" := PyStr "GGA_PBE"]> converted)
       else if decide (lower s = "lda") then
         Returned (delete "xc" params, <["EXCHANGE_CORRELATION" := PyStr "LDA_PW"]> converted)
       else Returned (delete "xc" params, converted)
   | Some _ => Raised attribute_error
   end, w).
Proof.
  unfold convert_xc, dict_pop.
  destruct (params !! "xc") as [xc|] eqn:E.
  - rewrite (dict_contains_Some _ _ _ E).
    destruct xc; try reflexivity.
    run_monad. unfold py_lower. run_monad.
    destruct (decide (lower s = "pbe")); [reflexivity|].
    destruct (decide (lower s = "lda")); reflexivity.
  - rewrite (dict_contains_None _ _ E). reflexivity.
Qed.

Lemma convert_h_run (atoms : option Atoms) (params converted : gmap string pyval)
    (w : world obj) :
  convert_h atoms params converted w =
  (match params !! "h" with
   | None => Returned (params, converted)
   | Some h =>
       match params !! "gpts" with
       | Some _ =>
           Raised (Exn KeyError "h and gpts cannot be provided together in SPARC calculator!")
       | None =>
           match atoms with
           | None =>
               Raised (Exn ValueError "Must have an active atoms object to convert h --> gpts!")
           | Some atoms =>
               Returned (<["gpts" := h2gpts h (cell atoms)]> (delete "h" params), converted)
           end
       end
   end, w).
Proof.
  unfold convert_h, dict_pop.
  destruct (params !! "h") as [h|] eqn:E.
  - rewrite (dict_contains_Some _ _ _ E).
    destruct (params !! "gpts") as [g|] eqn:G.
    + rewrite (dict_contains_Some _ _ _ G). reflexivity.
    + rewrite (dict_contains_None _ _ G). run_monad. destruct atoms; reflexivity.
  - rewrite (dict_contains_None _ _ E). reflexivity.
Qed.

Lemma convert_validated_run (name keyword : string) (params converted : gmap string pyval)
    (w : world obj) :
  convert_validated name keyword params converted w =
  (match params !! name with
   | None => Returned (params, converted)
   | Some v =>
       if validate_input keyword v then
         Returned (delete name params, <[keyword := v]> converted)
       else
         Raised (Exn ValueError
                   ("Input parameter " ++ name ++ " has invalid value " ++ py_str v))
   end, w).
Proof.
  unfold convert_validated, dict_pop.
  destruct (params !! name) as [v|] eqn:E.
  - rewrite (dict_contains_Some _ _ _ E). run_monad.
    destruct (validate_input keyword v); reflexivity.
  - rewrite (dict_contains_None _ _ E). reflexivity.
Qed.

Lemma convert_special_params_run (atoms : option Atoms) (w : world obj) :
  _convert_special_params atoms w =
  match convert_xc (special_params (self w)) ∅ w with
  | (Returned (params, converted), w') => convert_after_xc atoms params converted w'
  | (Raised e, w') => (Raised e, w')
  end.
Proof.
  unfold _convert_special_params, convert_after_xc.
  rewrite run_bind. unfold get_self at 1. cbv beta iota zeta. rewrite run_bind.
  destruct (convert_xc (special_params (self w)) ∅ w) as [[[params converted]|e] w'];
    reflexivity.
Qed.

Lemma convert_after_xc_run (atoms : option Atoms) (params converted : gmap string pyval)
    (w : world obj) :
  convert_after_xc atoms params converted w =
  match convert_h atoms params converted w with
  | (Returned (params, converted), w') => convert_after_h params converted w'
  | (Raised e, w') => (Raised e, w')
  end.
Proof.
  unfold convert_after_xc, convert_after_h. rewrite run_bind.
  destruct (convert_h atoms params converted w) as [[[p c]|e] w']; reflexivity.
Qed.

Ltac validated_cases :=
  repeat (rewrite ?run_bind, ?convert_validated_run; cbv beta iota;
          match goal with
          | |- context [match ?q !! ?k with _ => _ end] =>
              destruct (q !! k) as [?|] eqn:?
          | |- context [if validate_input ?k ?v then _ else _] =>
              destruct (validate_input k v) eqn:?
          end).

Lemma convert_after_h_world (params converted : gmap string pyval) (w : world obj) :
  snd (convert_after_h params converted w) = w.
Proof.
  unfold convert_after_h, convert_gpts, convert_kpts, convert_nbands.
  validated_cases; reflexivity.
Qed.

Lemma convert_after_h_pure (params converted : gmap string pyval) (w w' : world obj) :
  fst (convert_after_h params converted w) = fst (convert_after_h params converted w').
Proof.
  unfold convert_after_h, convert_gpts, convert_kpts, convert_nbands.
  validated_cases; reflexivity.
Qed.

Lemma convert_after_h_insert (params converted : gmap string pyval) (w : world obj)
    (key : string) (v : pyval) :
  key ∉ grid_keywords ->
  fst (convert_after_h params (<[key := v]> converted) w)
  = outcome_map (insert key v) (fst (convert_after_h params converted w)).
Proof.
  unfold grid_keywords. rewrite !not_elem_of_cons. intros (H1 & H2 & H3 & _).
  unfold convert_after_h, convert_gpts, convert_kpts, convert_nbands.
  validated_cases; rewrite ?run_ret; cbn [fst outcome_map]; try reflexivity; f_equal;
    repeat (rewrite (insert_insert_ne _ _ key) by congruence); reflexivity.
Qed.

Lemma convert_after_h_frame (params converted d : gmap string pyval) (w : world obj)
    (key : string) :
  key ∉ grid_keywords ->
  fst (convert_after_h params converted w) = Returned d ->
  d !! key = converted !! key.
Proof.
  unfold grid_keywords. rewrite !not_elem_of_cons. intros (H1 & H2 & H3 & _).
  unfold convert_after_h, convert_gpts, convert_kpts, convert_nbands.
  validated_cases; rewrite ?run_ret; cbn [fst]; intros Hd; try discriminate;
    injection Hd as <-; rewrite ?lookup_insert_ne by congruence; reflexivity.
Qed.

Lemma convert_after_h_fd_grid (params converted d : gmap string pyval) (w : world obj)
    (gpts : pyval) :
  params !! "gpts" = Some gpts ->
  fst (convert_after_h params converted w) = Returned d ->
  d !! "FD_GRID" = Some gpts.
Proof.
  intros Hg. unfold convert_after_h, convert_gpts, convert_kpts, convert_nbands.
  rewrite run_bind, convert_validated_run, Hg.
  destruct (validate_input "FD_GRID" gpts); [| cbn [fst]; discriminate].
  validated_cases; rewrite ?run_ret; cbn [fst]; intros Hd; try discriminate;
    injection Hd as <-; rewrite ?lookup_insert_ne by discriminate;
    apply lookup_insert_eq.
Qed.

Ltac after_xc_cases atoms params :=
  rewrite ?convert_after_xc_run, ?convert_h_run;
  destruct (params !! "h") as [?|]; [destruct (params !! "gpts") as [?|]; [| destruct atoms as [?|]] |].

Lemma convert_after_xc_world (atoms : option Atoms) (params converted : gmap string pyval)
    (w : world obj) :
  snd (convert_after_xc atoms params converted w) = w.
Proof. after_xc_cases atoms params; try reflexivity; apply convert_after_h_world. Qed.

Lemma convert_after_xc_pure (atoms : option Atoms) (params converted : gmap string pyval)
    (w w' : world obj) :
  fst (convert_after_xc atoms params converted w)
  = fst (convert_after_xc atoms params converted w').
Proof. after_xc_cases atoms params; try reflexivity; apply convert_after_h_pure. Qed.

Lemma convert_after_xc_insert (atoms : option Atoms) (params converted : gmap string pyval)
    (w : world obj) (key : string) (v : pyval) :
  key ∉ grid_keywords ->
  fst (convert_after_xc atoms params (<[key := v]> converted) w)
  = outcome_map (insert key v) (fst (convert_after_xc atoms params converted w)).
Proof.
  intros Hkey. after_xc_cases atoms params; try reflexivity;
    apply convert_after_h_insert; exact Hkey.
Qed.

Lemma convert_after_xc_frame (atoms : option Atoms) (params converted d : gmap string pyval)
    (w : world obj) (key : string) :
  key ∉ grid_keywords ->
  fst (convert_after_xc atoms params converted w) = Returned d ->
  d !! key = converted !! key.
Proof.
  intros Hkey. after_xc_cases atoms params; try (cbn [fst]; discriminate);
    apply convert_after_h_frame; exact Hkey.
Qed.

Lemma exchange_correlation_not_grid : "EXCHANGE_CORRELATION" ∉ grid_keywords.
Proof.
  unfold grid_keywords. rewrite !not_elem_of_cons.
  repeat split; try discriminate. apply not_elem_of_nil.
Qed.

(** The translation reads [self.special_params] and nothing else. *)
Lemma convert_special_params_without_xc (atoms : option Atoms) (w : world obj) :
  special_params (self w) !! "xc" = None ->
  _convert_special_params atoms w = convert_after_xc atoms (special_params (self w)) ∅ w.
Proof. intros Hxc. rewrite convert_special_params_run, convert_xc_run, Hxc. reflexivity. Qed.

Lemma convert_special_params_world (atoms : option Atoms) (w : world obj) :
  snd (_convert_special_params atoms w) = w.
Proof.
  rewrite convert_special_params_run, convert_xc_run.
  destruct (special_params (self w) !! "xc") as [[| | | |s|]|]; try reflexivity;
    [repeat destruct (decide _) |]; apply convert_after_xc_world.
Qed.

Lemma convert_with_xc_deleted (atoms : option Atoms) (w : world obj) :
  fst (_convert_special_params atoms
         (with_special_params (delete "xc" (special_params (self w))) w))
  = fst (convert_after_xc atoms (delete "xc" (special_params (self w))) ∅ w).
Proof.
  rewrite convert_special_params_without_xc by apply lookup_delete_eq.
  apply convert_after_xc_pure.
Qed.

(** C4. With ["xc"] set to a string that is ["pbe"] in any letter case, the
    translation gives what it gives without ["xc"] (the same exception, if
    one is raised) with ["EXCHANGE_CORRELATION"] set to ["GGA_PBE"]; with
    ["lda"] the keyword is set to ["LDA_PW"]. So every dictionary returned
    maps ["EXCHANGE_CORRELATION"] to that value. *)
Theorem convert_xc_keyword (atoms : option Atoms) (w : world obj) (s : string) :
  special_params (self w) !! "xc" = Some (PyStr s) ->
  let without_xc :=
    fst (_convert_special_params atoms
           (with_special_params (delete "xc" (special_params (self w))) w)) in
  let translated functional :=
    fst (_convert_special_params atoms w)
    = outcome_map (insert "EXCHANGE_CORRELATION" (PyStr functional)) without_xc
    /\ forall d, fst (_convert_special_params atoms w) = Returned d ->
                d !! "EXCHANGE_CORRELATION" = Some (PyStr functional) in
  (lower s = "pbe" -> translated "GGA_PBE")
  /\ (lower s = "lda" -> translated "LDA_PW").
Proof.
  intros Hxc. cbv zeta. rewrite convert_with_xc_deleted.
  rewrite convert_special_params_run, convert_xc_run, Hxc.
  assert (Hins : forall functional,
    fst (convert_after_xc atoms (delete "xc" (special_params (self w)))
           (<["EXCHANGE_CORRELATION" := PyStr functional]> ∅) w)
    = outcome_map (insert "EXCHANGE_CORRELATION" (PyStr functional))
        (fst (convert_after_xc atoms (delete "xc" (special_params (self w))) ∅ w))).
  { intros functional. apply convert_after_xc_insert, exchange_correlation_not_grid. }
  assert (Hget : forall functional d,
    outcome_map (insert "EXCHANGE_CORRELATION" (PyStr functional))
      (fst (convert_after_xc atoms (delete "xc" (special_params (self w))) ∅ w))
    = Returned d -> d !! "EXCHANGE_CORRELATION" = Some (PyStr functional)).
  { intros functional d.
    destruct (fst (convert_after_xc atoms (delete "xc" (special_params (self w))) ∅ w));
      cbn [outcome_map]; intros Hd; [| discriminate].
    injection Hd as <-. apply lookup_insert_eq. }
  split; intros Hs.
  - rewrite decide_True by exact Hs. rewrite Hins. split; [reflexivity | apply Hget].
  - rewrite decide_False by (rewrite Hs; discriminate).
    rewrite decide_True by exact Hs. rewrite Hins. split; [reflexivity | apply Hget].
Qed.

Lemma convert_after_xc_nothing (atoms : option Atoms) (params converted : gmap string pyval)
    (w : world obj) :
  (forall key, key ∈ grid_inputs -> params !! key = None) ->
  convert_after_xc atoms params converted w = (Returned converted, w).
Proof.
  intros Hnone.
  assert (Hh : params !! "h" = None) by (apply Hnone; unfold grid_inputs; set_solver).
  assert (Hg : params !! "gpts" = None) by (apply Hnone; unfold grid_inputs; set_solver).
  assert (Hk : params !! "kpts" = None) by (apply Hnone; unfold grid_inputs; set_solver).
  assert (Hn : params !! "nbands" = None) by (apply Hnone; unfold grid_inputs; set_solver).
  rewrite convert_after_xc_run, convert_h_run, Hh.
  unfold convert_after_h, convert_gpts, convert_kpts, convert_nbands.
  rewrite run_bind, convert_validated_run, Hg.
  rewrite run_bind, convert_validated_run, Hk.
  rewrite run_bind, convert_validated_run, Hn.
  reflexivity.
Qed.

(** C10, as amended. With ["xc"] set to a string that is neither ["pbe"]
    nor ["lda"] in any letter case, the translation behaves as it does
    without ["xc"]: the
    value raises no error of its own, and no dictionary returned has the key
    ["EXCHANGE_CORRELATION"]. In particular, when none of ["h"], ["gpts"],
    ["kpts"] and ["nbands"] is given, the empty dictionary is returned. *)
Theorem convert_xc_discarded (atoms : option Atoms) (w : world obj) (s : string) :
  special_params (self w) !! "xc" = Some (PyStr s) ->
  lower s <> "pbe" -> lower s <> "lda" ->
  fst (_convert_special_params atoms w)
  = fst (_convert_special_params atoms
           (with_special_params (delete "xc" (special_params (self w))) w))
  /\ snd (_convert_special_params atoms w) = w
  /\ (forall d, fst (_convert_special_params atoms w) = Returned d ->
                d !! "EXCHANGE_CORRELATION" = None)
  /\ ((forall key, key ∈ grid_inputs -> special_params (self w) !! key = None) ->
      _convert_special_params atoms w = (Returned ∅, w)).
Proof.
  intros Hxc Hpbe Hlda. rewrite convert_with_xc_deleted.
  split; [| split; [apply convert_special_params_world | split]].
  - rewrite convert_special_params_run, convert_xc_run, Hxc.
    rewrite decide_False by exact Hpbe. rewrite decide_False by exact Hlda. reflexivity.
  - intros d. rewrite convert_special_params_run, convert_xc_run, Hxc.
    rewrite decide_False by exact Hpbe. rewrite decide_False by exact Hlda.
    intros Hd.
    rewrite (convert_after_xc_frame _ _ _ _ _ _ exchange_correlation_not_grid Hd).
    apply lookup_empty.
  - intros Hnone. rewrite convert_special_params_run, convert_xc_run, Hxc.
    rewrite decide_False by exact Hpbe. rewrite decide_False by exact Hlda.
    apply convert_after_xc_nothing. intros key Hkey.
    rewrite lookup_delete_ne; [apply Hnone; exact Hkey|].
    intros <-. unfold grid_inputs in Hkey. rewrite !elem_of_cons, elem_of_nil in Hkey.
    destruct Hkey as [?|[?|[?|[?|[]]]]]; discriminate.
Qed.

Lemma convert_xc_returns (params : gmap string pyval) (w : world obj) :
  xc_is_str params ->
  convert_xc params ∅ w = (Returned (delete "xc" params, xc_keyword (params !! "xc")), w).
Proof.
  intros Hstr. rewrite convert_xc_run. unfold xc_keyword.
  destruct (params !! "xc") as [v|] eqn:Hxc.
  - destruct (Hstr v Hxc) as [s ->].
    repeat destruct (decide _); rewrite ?insert_empty; reflexivity.
  - rewrite delete_id by exact Hxc. reflexivity.
Qed.

Lemma convert_special_params_after_xc (atoms : option Atoms) (w : world obj) :
  xc_is_str (special_params (self w)) ->
  _convert_special_params atoms w
  = convert_after_xc atoms (delete "xc" (special_params (self w)))
      (xc_keyword (special_params (self w) !! "xc")) w.
Proof.
  intros Hstr. rewrite convert_special_params_run, convert_xc_returns by exact Hstr.
  reflexivity.
Qed.

(** C5, as amended. Let ["xc"], when given, be a string, and let ["h"] be
    given. With ["gpts"] given too a [KeyError] is raised. Without ["gpts"]
    and without atoms a [ValueError] is raised. Without ["gpts"] and with
    atoms, the translation gives what it gives when ["gpts"], set to
    [h2gpts] of ["h"] and the cell of the atoms, stands in place of ["h"]:
    every dictionary returned has that value under ["FD_GRID"], and when
    ["h"] is the only parameter translated and the validator accepts the
    value, the result is the dictionary with this one entry. *)
Theorem convert_h_to_fd_grid (atoms : option Atoms) (w : world obj) (h : pyval) :
  let params := special_params (self w) in
  xc_is_str params ->
  params !! "h" = Some h ->
  (is_Some (params !! "gpts") ->
     _convert_special_params atoms w
     = (Raised (Exn KeyError "h and gpts cannot be provided together in SPARC calculator!"), w))
  /\ (params !! "gpts" = None -> atoms = None ->
      _convert_special_params atoms w
      = (Raised (Exn ValueError "Must have an active atoms object to convert h --> gpts!"), w))
  /\ (params !! "gpts" = None -> forall a, atoms = Some a ->
      let gpts := h2gpts h (cell a) in
      fst (_convert_special_params atoms w)
      = fst (_convert_special_params atoms
               (with_special_params (<["gpts" := gpts]> (delete "h" params)) w))
      /\ (forall d, fst (_convert_special_params atoms w) = Returned d ->
                    d !! "FD_GRID" = Some gpts)
      /\ ((forall key, key ∈ ["xc"; "kpts"; "nbands"] -> params !! key = None) ->
          validate_input "FD_GRID" gpts = true ->
          _convert_special_params atoms w = (Returned {["FD_GRID" := gpts]}, w))).
Proof.
  cbv zeta. intros Hstr Hh.
  rewrite !(convert_special_params_after_xc atoms w Hstr).
  set (params := special_params (self w)) in *.
  assert (Hh' : delete "xc" params !! "h" = Some h)
    by (rewrite lookup_delete_ne by discriminate; exact Hh).
  split; [| split].
  - intros [g Hg].
    rewrite convert_after_xc_run, convert_h_run, Hh'.
    rewrite lookup_delete_ne by discriminate. rewrite Hg. reflexivity.
  - intros Hg ->.
    rewrite convert_after_xc_run, convert_h_run, Hh'.
    rewrite lookup_delete_ne by discriminate. rewrite Hg. reflexivity.
  - intros Hg a ->.
    set (gpts := h2gpts h (cell a)).
    assert (Hrun : convert_after_xc (Some a) (delete "xc" params)
                     (xc_keyword (params !! "xc")) w
                   = convert_after_h (<["gpts" := gpts]> (delete "h" (delete "xc" params)))
                       (xc_keyword (params !! "xc")) w).
    { rewrite convert_after_xc_run, convert_h_run, Hh'.
      rewrite lookup_delete_ne by discriminate. rewrite Hg. reflexivity. }
    rewrite !Hrun. split; [| split].
    + set (params2 := <["gpts" := gpts]> (delete "h" params)).
      assert (Hxc2 : params2 !! "xc" = params !! "xc").
      { unfold params2. rewrite lookup_insert_ne by discriminate.
        apply lookup_delete_ne. discriminate. }
      assert (Hstr2 : xc_is_str (special_params (self (with_special_params params2 w)))).
      { intros v. change (special_params (self (with_special_params params2 w))) with params2.
        rewrite Hxc2. apply Hstr. }
      rewrite (convert_special_params_after_xc (Some a) _ Hstr2).
      change (special_params (self (with_special_params params2 w))) with params2.
      rewrite Hxc2, convert_after_xc_run, convert_h_run.
      assert (Hdel : delete "xc" params2
                     = <["gpts" := gpts]> (delete "h" (delete "xc" params))).
      { unfold params2. rewrite delete_insert_ne by discriminate.
        rewrite (delete_delete params "xc" "h"). reflexivity. }
      rewrite Hdel. rewrite lookup_insert_ne by discriminate. rewrite lookup_delete_eq.
      apply convert_after_h_pure.
    + intros d Hd. apply (convert_after_h_fd_grid _ _ _ _ gpts) in Hd; [exact Hd|].
      apply lookup_insert_eq.
    + intros Hnone Hvalid.
      assert (Hx : params !! "xc" = None) by (apply Hnone; set_solver).
      assert (Hk : params !! "kpts" = None) by (apply Hnone; set_solver).
      assert (Hn : params !! "nbands" = None) by (apply Hnone; set_solver).
      rewrite Hx. cbn [xc_keyword].
      unfold convert_after_h, convert_gpts, convert_kpts, convert_nbands.
      rewrite run_bind, convert_validated_run, lookup_insert_eq, Hvalid.
      rewrite run_bind, convert_validated_run.
      rewrite lookup_delete_ne by discriminate. rewrite lookup_insert_ne by discriminate.
      rewrite !lookup_delete_ne by discriminate. rewrite Hk.
      rewrite run_bind, convert_validated_run.
      rewrite lookup_delete_ne by discriminate. rewrite lookup_insert_ne by discriminate.
      rewrite !lookup_delete_ne by discriminate. rewrite Hn.
      rewrite insert_empty. reflexivity.
Qed.

(** ** Sanitising the keyword arguments *)

Lemma warn_if_run (b : bool) (msg : string) (w : world obj) :
  (if b then warn msg else mret tt) w
  = (Returned tt, World (self w) (warnings w ++ (if b then [msg] else []))).
Proof. destruct b; [reflexivity|]. rewrite app_nil_r, world_eta. reflexivity. Qed.

Lemma sanitize_items_run (items : list (string * pyval))
    (valid_params special_params : gmap string pyval) (w : world obj) :
  exists issued,
    sanitize_items items valid_params special_params w
    = (Returned (sanitized items valid_params special_params),
       World (self w) (warnings w ++ issued))
    /\ forall key value, (key, value) ∈ items -> key ∉ special_inputs ->
         validate_input (upper key) value = false ->
         rejected_warning (upper key) ∈ issued.
Proof.
  revert valid_params special_params w.
  induction items as [|[key value] items IH]; intros valid_params special_params w.
  - exists []. split.
    + cbn. rewrite app_nil_r, world_eta. reflexivity.
    + intros key value Hin. apply elem_of_nil in Hin. destruct Hin.
  - cbn [sanitize_items sanitized].
    destruct (bool_decide (key ∈ special_inputs)) eqn:Hsp.
    + destruct (IH valid_params (<[key := value]> special_params) w) as (issued & Hrun & Hwarn).
      exists issued. split; [exact Hrun|].
      intros key' value' Hin Hns. apply elem_of_cons in Hin. destruct Hin as [Heq | Hin].
      * injection Heq as -> ->. apply bool_decide_eq_true in Hsp. contradiction.
      * apply Hwarn; assumption.
    + rewrite run_bind, warn_if_run. cbv beta iota zeta.
      set (pre := if dict_contains valid_params (upper key)
                  then [repeated_warning (upper key)] else []).
      destruct (validate_input (upper key) value) eqn:Hval.
      * destruct (IH (<[upper key := value]> valid_params) special_params
                    (World (self w) (warnings w ++ pre))) as (issued & Hrun & Hwarn).
        cbn [self warnings] in Hrun.
        exists (pre ++ issued)%list. split.
        -- rewrite <- app_assoc in Hrun. exact Hrun.
        -- intros key' value' Hin Hns Hrej. apply elem_of_app. right.
           apply elem_of_cons in Hin. destruct Hin as [Heq | Hin].
           ++ injection Heq as -> ->. congruence.
           ++ apply (Hwarn key' value'); assumption.
      * destruct (IH valid_params special_params
                    (World (self w) ((warnings w ++ pre) ++ [rejected_warning (upper key)])))
          as (issued & Hrun & Hwarn).
        cbn [self warnings] in Hrun.
        exists (pre ++ rejected_warning (upper key) :: issued)%list. split.
        -- rewrite run_bind. unfold warn at 1. cbv beta iota. cbn [self warnings].
           etransitivity; [exact Hrun|]. do 2 f_equal.
           rewrite <- !app_assoc. reflexivity.
        -- intros key' value' Hin Hns Hrej. apply elem_of_app. right.
           apply elem_of_cons in Hin. destruct Hin as [Heq | Hin].
           ++ injection Heq as -> ->. apply list_elem_of_here.
           ++ apply list_elem_of_further. apply (Hwarn key' value'); assumption.
Qed.

Ltac sanitized_step key value :=
  cbn [sanitized passed_keys fmap list_fmap fst];
  destruct (bool_decide (key ∈ special_inputs)) eqn:?Hsp;
    [apply bool_decide_eq_true in Hsp
    | apply bool_decide_eq_false in Hsp; destruct (validate_input (upper key) value) eqn:?Hval].

Lemma passed_keys_elem (items : list (string * pyval)) (key : string) (value : pyval) :
  (key, value) ∈ items -> key ∉ special_inputs -> upper key ∈ passed_keys items.
Proof.
  induction items as [|[key0 value0] items IH]; intros Hin Hns.
  - apply elem_of_nil in Hin. destruct Hin.
  - apply elem_of_cons in Hin. cbn [passed_keys].
    destruct Hin as [Heq | Hin].
    + injection Heq as <- <-. rewrite bool_decide_eq_false_2 by exact Hns.
      apply list_elem_of_here.
    + destruct (bool_decide (key0 ∈ special_inputs)); [auto|].
      apply list_elem_of_further. auto.
Qed.

Lemma sanitized_valid_other (items : list (string * pyval))
    (valid_params special_params : gmap string pyval) (key : string) :
  key ∉ passed_keys items ->
  (sanitized items valid_params special_params).1 !! key = valid_params !! key.
Proof.
  revert valid_params special_params.
  induction items as [|[key0 value0] items IH]; intros valid_params special_params;
    [reflexivity|].
  sanitized_step key0 value0; intros Hnot.
  - apply IH, Hnot.
  - apply not_elem_of_cons in Hnot. destruct Hnot as [Hne Hnot].
    rewrite IH by exact Hnot. apply lookup_insert_ne. congruence.
  - apply not_elem_of_cons in Hnot. destruct Hnot as [Hne Hnot]. apply IH, Hnot.
Qed.

Lemma sanitized_special_other (items : list (string * pyval))
    (valid_params special_params : gmap string pyval) (key : string) :
  key ∉ special_inputs \/ key ∉ items.*1 ->
  (sanitized items valid_params special_params).2 !! key = special_params !! key.
Proof.
  revert valid_params special_params.
  induction items as [|[key0 value0] items IH]; intros valid_params special_params;
    [reflexivity|].
  sanitized_step key0 value0; intros Hnot.
  - assert (Hne : key0 <> key).
    { intros ->. destruct Hnot as [Hnot | Hnot]; [contradiction|].
      apply Hnot, list_elem_of_here. }
    rewrite IH.
    + apply lookup_insert_ne, Hne.
    + destruct Hnot as [Hnot | Hnot]; [left; exact Hnot|].
      right. intros Hin. apply Hnot, list_elem_of_further, Hin.
  - apply IH. destruct Hnot as [Hnot | Hnot]; [left; exact Hnot|].
    right. intros Hin. apply Hnot, list_elem_of_further, Hin.
  - apply IH. destruct Hnot as [Hnot | Hnot]; [left; exact Hnot|].
    right. intros Hin. apply Hnot, list_elem_of_further, Hin.
Qed.

Lemma sanitized_valid_origin (items : list (string * pyval))
    (valid_params special_params : gmap string pyval) (key : string) (value : pyval) :
  (sanitized items valid_params special_params).1 !! key = Some value ->
  (exists key', (key', value) ∈ items /\ (key' ∉ special_inputs)
                /\ upper key' = key /\ validate_input key value = true)
  \/ valid_params !! key = Some value.
Proof.
  revert valid_params special_params.
  induction items as [|[key0 value0] items IH]; intros valid_params special_params;
    [right; assumption|].
  sanitized_step key0 value0; intros Hlook; apply IH in Hlook;
    destruct Hlook as [(key' & Hin & Hns & Hup & Hv) | Hlook];
    try (left; exists key'; split; [apply list_elem_of_further, Hin | auto]; fail);
    try (right; exact Hlook).
  destruct (decide (upper key0 = key)) as [Heq | Hne].
  - rewrite Heq, lookup_insert_eq in Hlook. injection Hlook as <-.
    left. exists key0. rewrite <- Heq. repeat split; auto. apply list_elem_of_here.
  - rewrite lookup_insert_ne in Hlook by exact Hne. right. exact Hlook.
Qed.

Lemma sanitized_special_origin (items : list (string * pyval))
    (valid_params special_params : gmap string pyval) (key : string) (value : pyval) :
  (sanitized items valid_params special_params).2 !! key = Some value ->
  ((key, value) ∈ items /\ key ∈ special_inputs) \/ special_params !! key = Some value.
Proof.
  revert valid_params special_params.
  induction items as [|[key0 value0] items IH]; intros valid_params special_params;
    [right; assumption|].
  sanitized_step key0 value0; intros Hlook; apply IH in Hlook;
    destruct Hlook as [[Hin Hs] | Hlook];
    try (left; split; [apply list_elem_of_further, Hin | exact Hs]; fail);
    try (right; exact Hlook).
  destruct (decide (key0 = key)) as [Heq | Hne].
  - rewrite Heq, lookup_insert_eq in Hlook. injection Hlook as <-.
    left. rewrite <- Heq. split; [apply list_elem_of_here | exact Hsp].
  - rewrite lookup_insert_ne in Hlook by exact Hne. right. exact Hlook.
Qed.

Lemma sanitized_valid_placed (items : list (string * pyval))
    (valid_params special_params : gmap string pyval) (key : string) (value : pyval) :
  NoDup (passed_keys items) ->
  (key, value) ∈ items -> key ∉ special_inputs ->
  validate_input (upper key) value = true ->
  (sanitized items valid_params special_params).1 !! upper key = Some value.
Proof.
  revert valid_params special_params.
  induction items as [|[key0 value0] items IH]; intros valid_params special_params Hnd Hin Hns Hv.
  - apply elem_of_nil in Hin. destruct Hin.
  - apply elem_of_cons in Hin. revert Hnd.
    sanitized_step key0 value0; intros Hnd.
    + destruct Hin as [Heq | Hin]; [injection Heq as -> ->; contradiction|].
      apply IH; assumption.
    + apply NoDup_cons in Hnd. destruct Hnd as [Hfresh Hnd].
      destruct Hin as [Heq | Hin].
      * injection Heq as -> ->.
        rewrite sanitized_valid_other by exact Hfresh. apply lookup_insert_eq.
      * apply IH; assumption.
    + apply NoDup_cons in Hnd. destruct Hnd as [Hfresh Hnd].
      destruct Hin as [Heq | Hin]; [injection Heq as -> ->; congruence|].
      apply IH; assumption.
Qed.

Lemma sanitized_special_placed (items : list (string * pyval))
    (valid_params special_params : gmap string pyval) (key : string) (value : pyval) :
  NoDup items.*1 ->
  (key, value) ∈ items -> key ∈ special_inputs ->
  (sanitized items valid_params special_params).2 !! key = Some value.
Proof.
  revert valid_params special_params.
  induction items as [|[key0 value0] items IH]; intros valid_params special_params Hnd Hin Hs.
  - apply elem_of_nil in Hin. destruct Hin.
  - apply elem_of_cons in Hin. cbn [fmap list_fmap fst] in Hnd.
    apply NoDup_cons in Hnd. destruct Hnd as [Hfresh Hnd].
    sanitized_step key0 value0.
    + destruct Hin as [Heq | Hin].
      * injection Heq as -> ->.
        rewrite sanitized_special_other by (right; exact Hfresh). apply lookup_insert_eq.
      * apply IH; assumption.
    + destruct Hin as [Heq | Hin]; [injection Heq as -> ->; contradiction|].
      apply IH; assumption.
    + destruct Hin as [Heq | Hin]; [injection Heq as -> ->; contradiction|].
      apply IH; assumption.
Qed.

Lemma passed_keys_unique (items : list (string * pyval))
    (key1 key2 : string) (value1 value2 : pyval) :
  NoDup (passed_keys items) ->
  (key1, value1) ∈ items -> (key2, value2) ∈ items ->
  key1 ∉ special_inputs -> key2 ∉ special_inputs ->
  upper key1 = upper key2 -> value1 = value2.
Proof.
  induction items as [|[key0 value0] items IH]; intros Hnd Hin1 Hin2 Hns1 Hns2 Hup.
  - apply elem_of_nil in Hin1. destruct Hin1.
  - apply elem_of_cons in Hin1. apply elem_of_cons in Hin2. cbn [passed_keys] in Hnd.
    destruct (bool_decide (key0 ∈ special_inputs)) eqn:Hsp.
    + apply bool_decide_eq_true in Hsp.
      destruct Hin1 as [Heq | Hin1]; [injection Heq as -> ->; contradiction|].
      destruct Hin2 as [Heq | Hin2]; [injection Heq as -> ->; contradiction|].
      apply IH; assumption.
    + apply NoDup_cons in Hnd. destruct Hnd as [Hfresh Hnd].
      destruct Hin1 as [Heq1 | Hin1]; destruct Hin2 as [Heq2 | Hin2].
      * congruence.
      * injection Heq1 as -> ->. exfalso. apply Hfresh. rewrite Hup.
        apply (passed_keys_elem _ _ value2); assumption.
      * injection Heq2 as -> ->. exfalso. apply Hfresh. rewrite <- Hup.
        apply (passed_keys_elem _ _ value1); assumption.
      * apply IH; assumption.
Qed.

(** C3, as amended. When no two keys that are not special have the same
    upper-case form, [_sanitize_kwargs] partitions the keyword arguments: it
    returns and raises nothing; every item with a special key is in
    [special_params] as given; every other item is in [valid_params] under
    its upper-case key exactly when the validator accepts it, and a rejected
    one is in neither dictionary and is named by a warning; the dictionaries
    hold nothing else. *)
Theorem sanitize_kwargs_partition (kwargs : list (string * pyval)) :
  NoDup kwargs.*1 ->
  NoDup (passed_keys kwargs) ->
  sanitize_partitions kwargs.
Proof.
  intros Hkeys Hpassed w. unfold _sanitize_kwargs. cbv zeta.
  destruct (sanitize_items_run kwargs ∅ ∅ w) as (issued & Hrun & Hwarn).
  exists (sanitized kwargs ∅ ∅).1, (sanitized kwargs ∅ ∅).2, issued.
  split; [| split; [| split]].
  - rewrite Hrun. destruct (sanitized kwargs ∅ ∅). reflexivity.
  - intros key value Hin. split.
    + intros Hs. apply sanitized_special_placed; assumption.
    + intros Hns. split; [split|].
      * intros Hlook. apply sanitized_valid_origin in Hlook.
        destruct Hlook as [(key' & Hin' & Hns' & Hup & Hv) | Hlook];
          [| rewrite lookup_empty in Hlook; discriminate].
        exact Hv.
      * intros Hv. apply sanitized_valid_placed; assumption.
      * intros Hrej. split; [| split].
        -- destruct ((sanitized kwargs ∅ ∅).1 !! upper key) as [value'|] eqn:Hlook;
             [| reflexivity].
           apply sanitized_valid_origin in Hlook.
           destruct Hlook as [(key' & Hin' & Hns' & Hup & Hv) | Hlook];
             [| rewrite lookup_empty in Hlook; discriminate].
           rewrite (passed_keys_unique kwargs key' key value' value Hpassed Hin' Hin Hns' Hns Hup)
             in Hv.
           congruence.
        -- rewrite sanitized_special_other by (left; exact Hns). apply lookup_empty.
        -- apply (Hwarn key value); assumption.
  - intros key value Hlook. apply sanitized_special_origin in Hlook.
    destruct Hlook as [Hlook | Hlook]; [exact Hlook|].
    rewrite lookup_empty in Hlook. discriminate.
  - intros key value Hlook. apply sanitized_valid_origin in Hlook.
    destruct Hlook as [Hlook | Hlook]; [exact Hlook|].
    rewrite lookup_empty in Hlook. discriminate.
Qed.

(** ** Reading the results of a static calculation *)

Lemma extract_static_results_run (w : world obj) :
  _extract_static_results w
  = (Returned tt,
     World (set_results
              (static_stored (default ∅ (static (raw_results (self w)))) (results (self w)))
              (self w)) (warnings w)).
Proof.
  unfold _extract_static_results, static_stored.
  rewrite run_bind. unfold get_self at 1. cbv beta iota zeta.
  set (st := default ∅ (static (raw_results (self w)))).
  set (old := results (self w)).
  rewrite !run_bind.
  destruct (st !! "free energy") as [e|] eqn:Ee;
    destruct (st !! "forces") as [f|] eqn:Ef;
    destruct (st !! "stress") as [t|] eqn:Et;
    rewrite ?(dict_contains_Some _ _ _ Ee), ?(dict_contains_None _ _ Ee),
      ?(dict_contains_Some _ _ _ Ef), ?(dict_contains_None _ _ Ef),
      ?(dict_contains_Some _ _ _ Et), ?(dict_contains_None _ _ Et);
    repeat (rewrite ?run_bind, ?run_ret, ?(dict_getitem_Some _ _ _ _ Ee),
             ?(dict_getitem_Some _ _ _ _ Ef), ?(dict_getitem_Some _ _ _ _ Et),
             ?store_result_run; cbv beta iota zeta; cbn [self warnings]);
    rewrite ?set_results_twice, ?results_set_results; subst old;
    rewrite ?set_results_id, ?world_eta; reflexivity.
Qed.

Lemma static_stored_lookup (st old : gmap string pyval) :
  static_stored st old !! "energy" = from_option Some (old !! "energy") (st !! "free energy")
  /\ static_stored st old !! "free energy"
     = from_option Some (old !! "free energy") (st !! "free energy")
  /\ static_stored st old !! "forces" = from_option Some (old !! "forces") (st !! "forces")
  /\ static_stored st old !! "stress" = from_option Some (old !! "stress") (st !! "stress")
  /\ forall key, key ∉ static_properties -> static_stored st old !! key = old !! key.
Proof.
  unfold static_stored. cbv zeta.
  destruct (st !! "free energy") as [e|]; destruct (st !! "forces") as [f|];
    destruct (st !! "stress") as [t|]; cbn [from_option];
    repeat split;
    try (intros key Hkey; unfold static_properties in Hkey;
         rewrite !not_elem_of_cons in Hkey; destruct Hkey as (? & ? & ? & ? & _));
    rewrite ?lookup_insert_eq; try reflexivity;
    repeat (rewrite lookup_insert_ne by (try congruence; discriminate));
    rewrite ?lookup_insert_eq; reflexivity.
Qed.

Lemma extract_out_results_run (w : world obj) :
  _extract_out_results w =
  match last_step_of (raw_results (self w)) !! "fermi level" with
  | Some fermi =>
      match fermi_in_ev fermi with
      | Some v =>
          (Returned tt,
           World (set_results (<["fermi" := v]> (results (self w))) (self w)) (warnings w))
      | None => (Raised (Exn ValueError "Wrong unit in Fermi!"), w)
      end
  | None => (Returned tt, w)
  end.
Proof.
  unfold _extract_out_results, fermi_in_ev.
  rewrite run_bind, get_last_ionic_step_run.
  destruct (last_step_of (raw_results (self w)) !! "fermi level") as [fermi|] eqn:E.
  - rewrite !run_bind, (dict_contains_Some _ _ _ E), !run_bind, (dict_getitem_Some _ _ _ _ E).
    cbv beta iota zeta. rewrite run_bind, (dict_getitem_Some _ _ _ _ E). cbv beta iota zeta.
    destruct (decide (lower (unit_str fermi) = "ev")); [reflexivity|].
    destruct (decide (lower (unit_str fermi) = "hartree")); reflexivity.
  - rewrite !run_bind, (dict_contains_None _ _ E). reflexivity.
Qed.

(** [read_results] on raw results with a ["static"] entry, step by step. *)
Lemma read_results_static_run (raw : raw_results_dict) (st : gmap string pyval)
    (w : world obj) :
  static raw = Some st ->
  read_results raw w
  = _extract_out_results
      (World (set_results (static_stored st (results (self w))) (set_raw_results raw (self w)))
             (warnings w)).
Proof.
  intros Hst. rewrite read_results_static by (rewrite Hst; eauto).
  rewrite run_bind, extract_static_results_run. cbn [self warnings].
  change (raw_results (set_raw_results raw (self w))) with raw.
  rewrite Hst. reflexivity.
Qed.

(** X1. On raw results with a ["static"] entry whose last ionic step has no
    Fermi level or one in a known unit, [read_results] returns, keeps the raw
    results in [self.raw_results], and leaves in [self.results] the static
    entries under the four properties, the Fermi level in eV under ["fermi"]
    when the last step has one, and every other property as it was. *)
Theorem read_results_static_stores (raw : raw_results_dict) (st : gmap string pyval)
    (w : world obj) :
  static raw = Some st ->
  match last_step_of raw !! "fermi level" with
  | Some fermi => is_Some (fermi_in_ev fermi)
  | None => True
  end ->
  exists res : gmap string pyval,
    read_results raw w
    = (Returned tt, World (set_results res (set_raw_results raw (self w))) (warnings w))
    /\ let old := results (self w) in
       res !! "energy" = from_option Some (old !! "energy") (st !! "free energy")
       /\ res !! "free energy"
          = from_option Some (old !! "free energy") (st !! "free energy")
       /\ res !! "forces" = from_option Some (old !! "forces") (st !! "forces")
       /\ res !! "stress" = from_option Some (old !! "stress") (st !! "stress")
       /\ res !! "fermi"
          = match last_step_of raw !! "fermi level" with
            | Some fermi => fermi_in_ev fermi
            | None => old !! "fermi"
            end
       /\ forall key, key ∉ static_properties -> key <> "fermi" -> res !! key = old !! key.
Proof.
  intros Hst Hunit. rewrite (read_results_static_run raw st w Hst), extract_out_results_run.
  cbn [self warnings]. change (raw_results (set_results _ (set_raw_results raw (self w)))) with raw.
  destruct (static_stored_lookup st (results (self w))) as (He & Hf & Hfo & Hs & Hother).
  assert (Hfermi : static_stored st (results (self w)) !! "fermi" = results (self w) !! "fermi").
  { apply Hother. unfold static_properties. rewrite !not_elem_of_cons.
    repeat split; try discriminate. apply not_elem_of_nil. }
  destruct (last_step_of raw !! "fermi level") as [fermi|].
  - destruct Hunit as [v Hv]. rewrite Hv.
    exists (<["fermi" := v]> (static_stored st (results (self w)))). split; [reflexivity|].
    cbv zeta. rewrite !lookup_insert_ne by discriminate. rewrite lookup_insert_eq.
    repeat split; try assumption.
    intros key Hkey Hne. rewrite lookup_insert_ne by congruence. apply Hother, Hkey.
  - exists (static_stored st (results (self w))). split.
    + reflexivity.
    + cbv zeta. repeat split; try assumption. intros key Hkey _. apply Hother, Hkey.
Qed.

(** X2. When the Fermi level of the last ionic step is in an unknown unit,
    [read_results] on static results raises [ValueError] after the fact: the
    raw results and the static energy, forces and stress are stored already,
    and ["fermi"] keeps its former value. *)
Theorem read_results_static_wrong_unit (raw : raw_results_dict) (st : gmap string pyval)
    (fermi : quantity) (w : world obj) :
  static raw = Some st ->
  last_step_of raw !! "fermi level" = Some fermi ->
  fermi_in_ev fermi = None ->
  exists res : gmap string pyval,
    read_results raw w
    = (Raised (Exn ValueError "Wrong unit in Fermi!"),
       World (set_results res (set_raw_results raw (self w))) (warnings w))
    /\ let old := results (self w) in
       res !! "energy" = from_option Some (old !! "energy") (st !! "free energy")
       /\ res !! "free energy"
          = from_option Some (old !! "free energy") (st !! "free energy")
       /\ res !! "forces" = from_option Some (old !! "forces") (st !! "forces")
       /\ res !! "stress" = from_option Some (old !! "stress") (st !! "stress")
       /\ forall key, key ∉ static_properties -> res !! key = old !! key.
Proof.
  intros Hst Hlast Hunit.
  rewrite (read_results_static_run raw st w Hst), extract_out_results_run.
  cbn [self warnings]. change (raw_results (set_results _ (set_raw_results raw (self w)))) with raw.
  rewrite Hlast, Hunit.
  exists (static_stored st (results (self w))). split; [reflexivity|].
  apply static_stored_lookup.
Qed.

(** X3. [get_fermi_level] gives back what [_extract_out_results] stored: the
    Fermi level of the last ionic step in eV when it has one in a known
    unit; and when the last step has none, the value ["fermi"] had before,
    which the extraction does not clear. *)
Theorem get_fermi_level_after_extraction (w : world obj) :
  let last_step := last_step_of (raw_results (self w)) in
  let extracted := fst ((_extract_out_results ≫= fun _ => get_fermi_level) w) in
  (forall fermi v, last_step !! "fermi level" = Some fermi -> fermi_in_ev fermi = Some v ->
     extracted = Returned (Some v))
  /\ (last_step !! "fermi level" = None ->
      extracted = Returned (results (self w) !! "fermi")).
Proof.
  cbv zeta. rewrite run_bind, extract_out_results_run. split.
  - intros fermi v Hlast Hv. rewrite Hlast, Hv. unfold get_fermi_level. run_monad.
    cbn [fst]. rewrite results_set_results, lookup_insert_eq. reflexivity.
  - intros Hlast. rewrite Hlast. reflexivity.
Qed.

(** ** More on the run command and the execution *)

(** [_make_command], case by case. *)
Lemma make_command_run (extras : list string + string) (w : world obj) :
  _make_command extras w =
  match command (self w) with
  | Some c => (Returned (c ++ " " ++ extras_string extras), w)
  | None =>
      match environ !! "ASE_SPARC_COMMAND" with
      | Some c =>
          (Returned (c ++ " " ++ extras_string extras),
           World (set_command (Some c) (self w)) (warnings w))
      | None =>
          match found_sparc with
          | (Some sparc_exe, mpi_exe, num_cores) =>
              let c := match mpi_exe with
                       | Some mpi_exe =>
                           mpi_exe ++ " -n " ++ pretty num_cores ++ " " ++ sparc_exe
                       | None => sparc_exe
                       end in
              (Returned (c ++ " " ++ extras_string extras),
               World (set_command (Some c) (self w)) (warnings w ++ [inferred_warning c]))
          | (None, _, _) => (Raised (Exn EnvironmentError no_setup_message), w)
          end
      end
  end.
Proof.
  unfold _make_command, extras_string. run_monad.
  destruct (command (self w)) as [c|] eqn:Hc.
  - run_monad. rewrite Hc. reflexivity.
  - destruct (environ !! "ASE_SPARC_COMMAND") as [c|].
    + run_monad. reflexivity.
    + destruct found_sparc as [[[sparc_exe|] [mpi_exe|]] num_cores]; reflexivity.
Qed.

Lemma make_command_frame (extras : list string + string) (w : world obj) :
  same_but_command (self w) (self (snd (_make_command extras w)))
  /\ exists issued, warnings (snd (_make_command extras w)) = (warnings w ++ issued)%list.
Proof.
  rewrite make_command_run. unfold same_but_command.
  destruct (command (self w)) as [c|].
  - cbn [snd]. split; [repeat split|]. exists []. rewrite app_nil_r. reflexivity.
  - destruct (environ !! "ASE_SPARC_COMMAND") as [c|].
    + cbn [snd self warnings]. split; [repeat split|]. exists []. rewrite app_nil_r. reflexivity.
    + destruct found_sparc as [[[sparc_exe|] mpi_exe] num_cores].
      * cbv zeta. cbn [snd self warnings]. split; [repeat split|]. eexists. reflexivity.
      * cbn [snd]. split; [repeat split|]. exists []. rewrite app_nil_r. reflexivity.
Qed.

(** X6. When [subprocess.run] raises [OSError], [execute] raises
    [EnvironmentError] with a message that quotes the command; the command it
    resolved stays in [self.command], and [self.proc] and the results keep
    their former values. *)
Theorem execute_os_error (w w1 : world obj) (cmd err : string) :
  _make_command (inr ("-name " ++ label (self w))) w = (Returned cmd, w1) ->
  subprocess_run cmd (directory (self w1)) = inl err ->
  execute w
  = (Raised (Exn EnvironmentError ("Failed to execute " ++ dquote ++ cmd ++ dquote)), w1)
  /\ proc (self w1) = proc (self w)
  /\ results (self w1) = results (self w)
  /\ raw_results (self w1) = raw_results (self w).
Proof.
  intros Hstart Hrun. rewrite execute_run, Hstart, Hrun. split; [reflexivity|].
  destruct (make_command_frame (inr ("-name " ++ label (self w))) w) as [Hsame _].
  rewrite Hstart in Hsame. cbn [snd] in Hsame.
  destruct Hsame as (_ & _ & _ & _ & Hraw & Hres & Hproc). auto.
Qed.

(** X7. Whatever happens, [execute] changes nothing of the calculator but
    [self.command] and [self.proc], and takes no warning back: label,
    directory, parameters, raw results and results are as before. *)
Theorem execute_frame (w : world obj) :
  let o := self w in
  let o' := self (snd (execute w)) in
  label o' = label o /\ directory o' = directory o
  /\ valid_params o' = valid_params o /\ special_params o' = special_params o
  /\ raw_results o' = raw_results o /\ results o' = results o
  /\ exists issued, warnings (snd (execute w)) = (warnings w ++ issued)%list.
Proof.
  cbv zeta. rewrite execute_run.
  destruct (make_command_frame (inr ("-name " ++ label (self w))) w) as [Hsame Hwarn].
  destruct (_make_command (inr ("-name " ++ label (self w))) w) as [[cmd|e] w1];
    cbn [snd] in *; destruct Hsame as (Hl & Hd & Hv & Hs & Hraw & Hres & Hproc).
  - destruct (subprocess_run cmd (directory (self w1))) as [err|returncode].
    + cbn [snd]. repeat split; assumption.
    + cbv zeta. destruct (0 <? returncode); cbn [snd self warnings];
        repeat split; assumption.
  - repeat split; assumption.
Qed.

(** ** More on the keyword arguments *)

Lemma upper_ascii_idempotent (c : ascii) : upper_ascii (upper_ascii c) = upper_ascii c.
Proof. destruct c as [[] [] [] [] [] [] [] []]; reflexivity. Qed.

Lemma upper_idempotent (s : string) : upper (upper s) = upper s.
Proof.
  unfold upper. induction s as [|c s IH]; [reflexivity|].
  cbn [map_string]. rewrite upper_ascii_idempotent, IH. reflexivity.
Qed.

Lemma sanitize_items_warnings (items : list (string * pyval))
    (valid_params special_params : gmap string pyval) (w : world obj) :
  sanitize_items items valid_params special_params w
  = (Returned (sanitized items valid_params special_params),
     World (self w) (warnings w ++ sanitize_warnings items valid_params)).
Proof.
  revert valid_params special_params w.
  induction items as [|[key value] items IH]; intros valid_params special_params w.
  - cbn. rewrite app_nil_r, world_eta. reflexivity.
  - cbn [sanitize_items sanitized sanitize_warnings].
    destruct (bool_decide (key ∈ special_inputs)); [apply IH|].
    rewrite run_bind, warn_if_run. cbv beta iota zeta.
    destruct (validate_input (upper key) value).
    + rewrite IH. cbn [self warnings]. rewrite <- app_assoc. reflexivity.
    + rewrite run_bind. unfold warn at 1. cbv beta iota. cbn [self warnings].
      rewrite IH. cbn [self warnings]. rewrite <- !app_assoc. reflexivity.
Qed.

Lemma sanitize_kwargs_run (kwargs : list (string * pyval)) (w : world obj) :
  _sanitize_kwargs kwargs w
  = (Returned (sanitized kwargs ∅ ∅), World (self w) (warnings w ++ sanitize_warnings kwargs ∅)).
Proof. apply sanitize_items_warnings. Qed.

(** X8. For all keyword arguments, clashing keys included, [_sanitize_kwargs]
    returns, leaves the calculator as it was and only adds warnings; every
    entry of [valid_params] has a key in upper case and a value the validator
    accepts under that key, and comes from an item whose key is not special;
    every entry of [special_params] is an item with a special key. *)
Theorem sanitize_kwargs_invariants (kwargs : list (string * pyval)) (w : world obj) :
  exists valid_params special_params issued,
    _sanitize_kwargs kwargs w
    = (Returned (valid_params, special_params), World (self w) (warnings w ++ issued))
    /\ (forall key value, valid_params !! key = Some value ->
          upper key = key /\ validate_input key value = true
          /\ exists key', (key', value) ∈ kwargs /\ (key' ∉ special_inputs)
                          /\ upper key' = key)
    /\ (forall key value, special_params !! key = Some value ->
          key ∈ special_inputs /\ (key, value) ∈ kwargs).
Proof.
  exists (sanitized kwargs ∅ ∅).1, (sanitized kwargs ∅ ∅).2, (sanitize_warnings kwargs ∅).
  split; [| split].
  - rewrite sanitize_kwargs_run. destruct (sanitized kwargs ∅ ∅). reflexivity.
  - intros key value Hlook. apply sanitized_valid_origin in Hlook.
    destruct Hlook as [(key' & Hin & Hns & Hup & Hv) | Hlook];
      [| rewrite lookup_empty in Hlook; discriminate].
    split; [| split; [exact Hv | exists key'; auto]].
    rewrite <- Hup. apply upper_idempotent.
  - intros key value Hlook. apply sanitized_special_origin in Hlook.
    destruct Hlook as [[Hin Hs] | Hlook]; [auto|].
    rewrite lookup_empty in Hlook. discriminate.
Qed.

Lemma sanitized_app (before after : list (string * pyval))
    (valid_params special_params : gmap string pyval) :
  sanitized (before ++ after) valid_params special_params
  = sanitized after (sanitized before valid_params special_params).1
      (sanitized before valid_params special_params).2.
Proof.
  revert valid_params special_params.
  induction before as [|[key value] before IH]; intros valid_params special_params;
    [reflexivity|].
  cbn [app sanitized].
  destruct (bool_decide (key ∈ special_inputs)); [apply IH|].
  destruct (validate_input (upper key) value); apply IH.
Qed.

Lemma sanitized_valid_kept (items : list (string * pyval))
    (valid_params special_params : gmap string pyval) (key : string) :
  (forall key' value', (key', value') ∈ items -> key' ∉ special_inputs ->
     upper key' = key -> validate_input key value' = false) ->
  (sanitized items valid_params special_params).1 !! key = valid_params !! key.
Proof.
  revert valid_params special_params.
  induction items as [|[key0 value0] items IH]; intros valid_params special_params Hrej;
    [reflexivity|].
  assert (Hrest : forall key' value', (key', value') ∈ items -> key' ∉ special_inputs ->
            upper key' = key -> validate_input key value' = false).
  { intros key' value' Hin. apply Hrej, list_elem_of_further, Hin. }
  sanitized_step key0 value0; try (apply IH, Hrest).
  rewrite IH by exact Hrest. apply lookup_insert_ne. intros Heq.
  rewrite <- Heq in Hrej. rewrite (Hrej key0 value0) in Hval; auto using list_elem_of_here.
  discriminate.
Qed.

(** X9. Of the items whose keys have the same upper-case form, the last one
    the validator accepts is kept: an accepted item followed only by
    rejected items of its upper-case key is in [valid_params], whatever came
    before it. *)
Theorem sanitize_kwargs_last_accepted (before after : list (string * pyval))
    (key : string) (value : pyval) (w : world obj) :
  key ∉ special_inputs ->
  validate_input (upper key) value = true ->
  (forall key' value', (key', value') ∈ after -> key' ∉ special_inputs ->
     upper key' = upper key -> validate_input (upper key) value' = false) ->
  exists valid_params special_params w',
    _sanitize_kwargs (before ++ (key, value) :: after) w
    = (Returned (valid_params, special_params), w')
    /\ valid_params !! upper key = Some value.
Proof.
  intros Hns Hv Hafter. rewrite sanitize_kwargs_run.
  destruct (sanitized (before ++ (key, value) :: after) ∅ ∅) as [valid special] eqn:Hs.
  exists valid, special. eexists. split; [reflexivity|].
  change valid with (valid, special).1. rewrite <- Hs, sanitized_app.
  cbn [sanitized]. rewrite bool_decide_eq_false_2 by exact Hns. rewrite Hv.
  rewrite sanitized_valid_kept by exact Hafter. apply lookup_insert_eq.
Qed.

Lemma sanitize_warnings_none (items : list (string * pyval))
    (valid_params : gmap string pyval) :
  sanitize_warnings items valid_params = []
  <-> (forall key value, (key, value) ∈ items -> key ∉ special_inputs ->
         validate_input (upper key) value = true)
      /\ NoDup (passed_keys items)
      /\ (forall key, key ∈ passed_keys items -> valid_params !! key = None).
Proof.
  revert valid_params.
  induction items as [|[key value] items IH]; intros valid_params.
  - cbn. split; [intros _ | reflexivity].
    split; [| split; [apply NoDup_nil_2 |]].
    + intros key value Hin. apply elem_of_nil in Hin. destruct Hin.
    + intros key Hin. apply elem_of_nil in Hin. destruct Hin.
  - cbn [sanitize_warnings passed_keys].
    destruct (bool_decide (key ∈ special_inputs)) eqn:Hsp.
    + apply bool_decide_eq_true in Hsp. rewrite IH. split.
      * intros (Hacc & Hnd & Hfree). split; [| auto].
        intros key' value' Hin Hns. apply elem_of_cons in Hin.
        destruct Hin as [Heq | Hin]; [injection Heq as -> ->; contradiction|].
        apply Hacc; assumption.
      * intros (Hacc & Hnd & Hfree). split; [| auto].
        intros key' value' Hin. apply Hacc, list_elem_of_further, Hin.
    + apply bool_decide_eq_false in Hsp. split.
      * intros Hnil. apply app_eq_nil in Hnil. destruct Hnil as [Hpre Hrest].
        assert (Hfresh : valid_params !! upper key = None).
        { destruct (valid_params !! upper key) as [v|] eqn:Hv; [| reflexivity].
          rewrite (dict_contains_Some _ _ _ Hv) in Hpre. discriminate. }
        destruct (validate_input (upper key) value) eqn:Hval; [| discriminate].
        apply IH in Hrest. destruct Hrest as (Hacc & Hnd & Hfree).
        assert (Hnotin : upper key ∉ passed_keys items).
        { intros Hin. apply Hfree in Hin. rewrite lookup_insert_eq in Hin. discriminate. }
        split; [| split].
        -- intros key' value' Hin Hns. apply elem_of_cons in Hin.
           destruct Hin as [Heq | Hin]; [injection Heq as -> ->; exact Hval|].
           apply Hacc; assumption.
        -- apply NoDup_cons. auto.
        -- intros key' Hin. apply elem_of_cons in Hin. destruct Hin as [-> | Hin];
             [exact Hfresh|].
           rewrite <- (Hfree key' Hin). symmetry. apply lookup_insert_ne.
           intros <-. contradiction.
      * intros (Hacc & Hnd & Hfree). apply NoDup_cons in Hnd. destruct Hnd as [Hnotin Hnd].
        rewrite (dict_contains_None valid_params (upper key))
          by (apply Hfree, list_elem_of_here).
        rewrite (Hacc key value) by (auto using list_elem_of_here).
        cbn [app]. apply IH. split; [| split; [exact Hnd |]].
        -- intros key' value' Hin. apply Hacc, list_elem_of_further, Hin.
        -- intros key' Hin. rewrite lookup_insert_ne by (intros <-; contradiction).
           apply Hfree, list_elem_of_further, Hin.
Qed.

(** X10. [_sanitize_kwargs] issues no warning exactly when the validator
    accepts the value of every key that is not special and no two such keys
    have the same upper-case form. *)
Theorem sanitize_kwargs_quiet_iff (kwargs : list (string * pyval)) (w : world obj) :
  snd (_sanitize_kwargs kwargs w) = w
  <-> (forall key value, (key, value) ∈ kwargs -> key ∉ special_inputs ->
         validate_input (upper key) value = true)
      /\ NoDup (passed_keys kwargs).
Proof.
  rewrite sanitize_kwargs_run. cbn [snd].
  pose proof (sanitize_warnings_none kwargs ∅) as Hnone.
  split.
  - intros Hw. destruct w as [o ws]. cbn [self warnings] in Hw.
    injection Hw as Hw. rewrite <- (app_nil_r ws) in Hw at 2.
    apply app_inv_head in Hw. apply Hnone in Hw. destruct Hw as (Hacc & Hnd & _). auto.
  - intros [Hacc Hnd].
    rewrite (proj2 Hnone) by (split; [exact Hacc | split; [exact Hnd | intros; apply lookup_empty]]).
    rewrite app_nil_r. apply world_eta.
Qed.

Lemma sanitize_warnings_repeated (items : list (string * pyval))
    (valid_params : gmap string pyval) (key : string) (value : pyval) :
  is_Some (valid_params !! upper key) ->
  (key, value) ∈ items -> key ∉ special_inputs ->
  repeated_warning (upper key) ∈ sanitize_warnings items valid_params.
Proof.
  revert valid_params.
  induction items as [|[key0 value0] items IH]; intros valid_params Hsome Hin Hns.
  - apply elem_of_nil in Hin. destruct Hin.
  - apply elem_of_cons in Hin. cbn [sanitize_warnings].
    destruct (bool_decide (key0 ∈ special_inputs)) eqn:Hsp.
    + apply bool_decide_eq_true in Hsp.
      destruct Hin as [Heq | Hin]; [injection Heq as -> ->; contradiction|].
      apply IH; assumption.
    + destruct Hin as [Heq | Hin].
      * injection Heq as <- <-. destruct Hsome as [v Hv].
        rewrite (dict_contains_Some _ _ _ Hv). apply elem_of_app. left.
        apply list_elem_of_here.
      * apply elem_of_app. right.
        destruct (validate_input (upper key0) value0).
        -- apply IH; [| assumption | assumption].
           destruct (decide (upper key0 = upper key)) as [-> | Hne].
           ++ rewrite lookup_insert_eq. eauto.
           ++ rewrite lookup_insert_ne by exact Hne. exact Hsome.
        -- apply list_elem_of_further. apply IH; assumption.
Qed.

Lemma sanitize_warnings_app (before after : list (string * pyval))
    (valid_params special_params : gmap string pyval) :
  sanitize_warnings (before ++ after) valid_params
  = (sanitize_warnings before valid_params
     ++ sanitize_warnings after (sanitized before valid_params special_params).1)%list.
Proof.
  revert valid_params special_params.
  induction before as [|[key value] before IH]; intros valid_params special_params;
    [reflexivity|].
  cbn [app sanitize_warnings sanitized].
  destruct (bool_decide (key ∈ special_inputs)); [apply IH|].
  destruct (validate_input (upper key) value).
  - rewrite (IH _ special_params), app_assoc. reflexivity.
  - rewrite (IH _ special_params). cbn [app]. rewrite <- app_assoc. reflexivity.
Qed.

(** X11. When an item with an accepted value is followed by an item whose key
    has the same upper-case form, the warning that the parameter appears
    multiple times is issued for that upper-case key. *)
Theorem sanitize_kwargs_repeated_warning (before after : list (string * pyval))
    (key1 key2 : string) (value1 value2 : pyval) (w : world obj) :
  key1 ∉ special_inputs -> key2 ∉ special_inputs ->
  validate_input (upper key1) value1 = true ->
  (key2, value2) ∈ after ->
  upper key2 = upper key1 ->
  exists issued,
    warnings (snd (_sanitize_kwargs (before ++ (key1, value1) :: after) w))
    = (warnings w ++ issued)%list
    /\ repeated_warning (upper key1) ∈ issued.
Proof.
  intros Hns1 Hns2 Hv Hin Hup. rewrite sanitize_kwargs_run. cbn [snd warnings].
  eexists. split; [reflexivity|].
  rewrite (sanitize_warnings_app before _ ∅ ∅). apply elem_of_app. right.
  cbn [sanitize_warnings]. rewrite bool_decide_eq_false_2 by exact Hns1. rewrite Hv.
  apply elem_of_app. right. rewrite <- Hup.
  apply (sanitize_warnings_repeated _ _ key2 value2); [| assumption | assumption].
  rewrite Hup, lookup_insert_eq. eauto.
Qed.

(** ** More on the translation of the special parameters *)

Lemma convert_after_h_translated (params converted : gmap string pyval) (w : world obj) :
  convert_after_h params converted w
  = (outcome_bind (validated_entry "gpts" "FD_GRID" (params !! "gpts") converted)
       (fun converted =>
        outcome_bind (validated_entry "kpts" "KPOINT_GRID" (params !! "kpts") converted)
          (fun converted =>
           validated_entry "nbands" "NSTATES" (params !! "nbands") converted)), w).
Proof.
  unfold convert_after_h, convert_gpts, convert_kpts, convert_nbands, validated_entry.
  rewrite run_bind, convert_validated_run.
  destruct (params !! "gpts") as [g|] eqn:Hg;
    [destruct (validate_input "FD_GRID" g); [| reflexivity] |];
    cbn [outcome_bind]; rewrite run_bind, convert_validated_run;
    rewrite ?lookup_delete_ne by discriminate;
    (destruct (params !! "kpts") as [k|] eqn:Hk;
      [destruct (validate_input "KPOINT_GRID" k); [| reflexivity] |]);
    cbn [outcome_bind]; rewrite run_bind, convert_validated_run;
    rewrite ?lookup_delete_ne by discriminate;
    (destruct (params !! "nbands") as [n|] eqn:Hn;
      [destruct (validate_input "NSTATES" n) |]); reflexivity.
Qed.

Lemma convert_special_params_translated (atoms : option Atoms) (w : world obj) :
  _convert_special_params atoms w
  = (let params := special_params (self w) in
     translated atoms (params !! "xc") (params !! "h") (params !! "gpts")
       (params !! "kpts") (params !! "nbands"), w).
Proof.
  cbv zeta. set (params := special_params (self w)).
  assert (Hafter : forall converted,
    convert_after_xc atoms (delete "xc" params) converted w
    = (outcome_bind (grid_points atoms (params !! "h") (params !! "gpts")) (fun gpts =>
       outcome_bind (validated_entry "gpts" "FD_GRID" gpts converted) (fun converted =>
       outcome_bind (validated_entry "kpts" "KPOINT_GRID" (params !! "kpts") converted)
         (fun converted =>
          validated_entry "nbands" "NSTATES" (params !! "nbands") converted))), w)).
  { intros converted. rewrite convert_after_xc_run, convert_h_run. unfold grid_points.
    rewrite !(lookup_delete_ne params "xc") by discriminate.
    destruct (params !! "h") as [h|] eqn:Hh.
    - destruct (params !! "gpts") as [g|] eqn:Hg; [reflexivity|].
      destruct atoms as [a|]; [| reflexivity].
      rewrite convert_after_h_translated. cbn [outcome_bind].
      rewrite lookup_insert_eq. rewrite !lookup_insert_ne by discriminate.
      rewrite !lookup_delete_ne by discriminate. reflexivity.
    - rewrite convert_after_h_translated. cbn [outcome_bind].
      rewrite !lookup_delete_ne by discriminate. reflexivity. }
  rewrite convert_special_params_run, convert_xc_run. fold params. unfold translated.
  destruct (params !! "xc") as [xc|] eqn:Hxc.
  - destruct xc as [| | | |s|]; try reflexivity.
    cbn [outcome_bind xc_keyword].
    destruct (decide (lower s = "pbe")); [rewrite insert_empty; apply Hafter|].
    destruct (decide (lower s = "lda")); [rewrite insert_empty; apply Hafter|].
    apply Hafter.
  - cbn [outcome_bind xc_keyword]. rewrite <- (delete_id params "xc") at 1 by exact Hxc.
    apply Hafter.
Qed.

(** X12. [_convert_special_params] reads the special parameters ["xc"],
    ["h"], ["gpts"], ["kpts"] and ["nbands"] and nothing else: two
    calculators that agree on these five give the same outcome, so
    ["convergence"] and ["encut"], which are special inputs too, have no
    effect. The call works on a copy: the calculator, its special parameters
    included, is left as it was. *)
Theorem convert_special_params_reads (atoms : option Atoms) (w w' : world obj) :
  (forall key, key ∈ translated_inputs ->
     special_params (self w) !! key = special_params (self w') !! key) ->
  fst (_convert_special_params atoms w) = fst (_convert_special_params atoms w')
  /\ snd (_convert_special_params atoms w) = w.
Proof.
  intros Hagree. rewrite !convert_special_params_translated. cbv zeta. cbn [fst snd].
  split; [| reflexivity].
  rewrite !Hagree; [reflexivity | | | | |]; unfold translated_inputs;
    rewrite !elem_of_cons; auto 10.
Qed.

Lemma validated_entry_returned (name keyword : string) (v : option pyval)
    (converted d : gmap string pyval) :
  validated_entry name keyword v converted = Returned d ->
  d = with_entry keyword v converted
  /\ forall x, v = Some x -> validate_input keyword x = true.
Proof.
  unfold validated_entry, with_entry. destruct v as [x|].
  - destruct (validate_input keyword x) eqn:Hx; [| discriminate].
    intros H. injection H as <-. split; [reflexivity|].
    intros y Hy. injection Hy as <-. exact Hx.
  - intros H. injection H as <-. split; [reflexivity | discriminate].
Qed.

(** What a returned dictionary is made of. *)
Lemma translated_returned (atoms : option Atoms) (xc h gpts kpts nbands : option pyval)
    (d : gmap string pyval) :
  translated atoms xc h gpts kpts nbands = Returned d ->
  exists grid,
    grid_points atoms h gpts = Returned grid
    /\ d = with_entry "NSTATES" nbands
             (with_entry "KPOINT_GRID" kpts (with_entry "FD_GRID" grid (xc_keyword xc)))
    /\ (forall x, grid = Some x -> validate_input "FD_GRID" x = true)
    /\ (forall x, kpts = Some x -> validate_input "KPOINT_GRID" x = true)
    /\ (forall x, nbands = Some x -> validate_input "NSTATES" x = true).
Proof.
  unfold translated.
  destruct (match xc with
            | Some (PyStr _) | None => Returned (xc_keyword xc)
            | Some _ => Raised attribute_error
            end) as [c0|] eqn:Hxc; [| discriminate].
  assert (Hc0 : c0 = xc_keyword xc).
  { destruct xc as [[| | | |s|]|]; try discriminate; injection Hxc as <-; reflexivity. }
  subst c0. cbn [outcome_bind].
  destruct (grid_points atoms h gpts) as [grid|]; [| discriminate]. cbn [outcome_bind].
  destruct (validated_entry "gpts" "FD_GRID" grid (xc_keyword xc)) as [c1|] eqn:H1;
    [| discriminate].
  cbn [outcome_bind].
  destruct (validated_entry "kpts" "KPOINT_GRID" kpts c1) as [c2|] eqn:H2; [| discriminate].
  cbn [outcome_bind]. intros H3.
  apply validated_entry_returned in H1, H2, H3.
  destruct H1 as [-> Hg], H2 as [-> Hk], H3 as [-> Hn].
  exists grid. auto.
Qed.

Lemma xc_keyword_lookup (xc : option pyval) (key : string) (v : pyval) :
  xc_keyword xc !! key = Some v ->
  key = "EXCHANGE_CORRELATION" /\ (v = PyStr "GGA_PBE" \/ v = PyStr "LDA_PW").
Proof.
  unfold xc_keyword. destruct xc as [[| | | |s|]|]; try (rewrite lookup_empty; discriminate).
  destruct (decide (lower s = "pbe")).
  - intros H. apply lookup_singleton_Some in H. destruct H as [<- <-]. auto.
  - destruct (decide (lower s = "lda")); [| rewrite lookup_empty; discriminate].
    intros H. apply lookup_singleton_Some in H. destruct H as [<- <-]. auto.
Qed.

Lemma with_entry_lookup (keyword : string) (v : option pyval)
    (converted : gmap string pyval) (key : string) :
  with_entry keyword v converted !! key
  = if decide (keyword = key) then from_option Some (converted !! key) v
    else converted !! key.
Proof.
  unfold with_entry. destruct v as [x|]; destruct (decide (keyword = key)) as [-> | Hne];
    cbn [from_option]; rewrite ?lookup_insert_eq, ?lookup_insert_ne by exact Hne;
    reflexivity.
Qed.

(** X13. Every entry of a dictionary that [_convert_special_params] returns
    is either ["EXCHANGE_CORRELATION"] with ["GGA_PBE"] or ["LDA_PW"], or one
    of ["FD_GRID"], ["KPOINT_GRID"] and ["NSTATES"] with a value the
    validator accepts under that keyword. *)
Theorem convert_special_params_entries (atoms : option Atoms) (w : world obj)
    (d : gmap string pyval) :
  fst (_convert_special_params atoms w) = Returned d ->
  forall key v, d !! key = Some v ->
    (key = "EXCHANGE_CORRELATION" /\ (v = PyStr "GGA_PBE" \/ v = PyStr "LDA_PW"))
    \/ (key ∈ grid_keywords /\ validate_input key v = true).
Proof.
  rewrite convert_special_params_translated. cbv zeta. cbn [fst]. intros Hd.
  apply translated_returned in Hd. destruct Hd as (grid & _ & -> & Hg & Hk & Hn).
  intros key v. rewrite !with_entry_lookup. unfold grid_keywords.
  destruct (decide ("NSTATES" = key)) as [<- | _].
  { destruct (special_params (self w) !! "nbands") as [x|] eqn:Hx; cbn [from_option].
    - intros H. injection H as <-. right. split; [rewrite !elem_of_cons; auto | apply Hn; reflexivity].
    - destruct (decide ("KPOINT_GRID" = "NSTATES")); [discriminate|].
      destruct (decide ("FD_GRID" = "NSTATES")); [discriminate|].
      intros H. apply xc_keyword_lookup in H. destruct H as [H _]. discriminate. }
  destruct (decide ("KPOINT_GRID" = key)) as [<- | _].
  { destruct (special_params (self w) !! "kpts") as [x|] eqn:Hx; cbn [from_option].
    - intros H. injection H as <-. right. split; [rewrite !elem_of_cons; auto | apply Hk; reflexivity].
    - destruct (decide ("FD_GRID" = "KPOINT_GRID")); [discriminate|].
      intros H. apply xc_keyword_lookup in H. destruct H as [H _]. discriminate. }
  destruct (decide ("FD_GRID" = key)) as [<- | _].
  { destruct grid as [x|]; cbn [from_option].
    - intros H. injection H as <-. right. split; [rewrite !elem_of_cons; auto | apply Hg; reflexivity].
    - intros H. apply xc_keyword_lookup in H. destruct H as [H _]. discriminate. }
  intros H. left. apply xc_keyword_lookup in H. exact H.
Qed.

(** X14. In every dictionary that [_convert_special_params] returns,
    ["KPOINT_GRID"] is ["kpts"] as given and ["NSTATES"] is ["nbands"] as
    given, each absent when the parameter is, and without ["h"] the entry
    ["FD_GRID"] is ["gpts"] as given; a value of one of the three that the
    validator rejects under its keyword makes the call raise. *)
Theorem convert_special_params_grids (atoms : option Atoms) (w : world obj) :
  let params := special_params (self w) in
  (forall d, fst (_convert_special_params atoms w) = Returned d ->
     d !! "KPOINT_GRID" = params !! "kpts"
     /\ d !! "NSTATES" = params !! "nbands"
     /\ (params !! "h" = None -> d !! "FD_GRID" = params !! "gpts"))
  /\ (forall name keyword v,
        (name, keyword) ∈ [("gpts", "FD_GRID"); ("kpts", "KPOINT_GRID"); ("nbands", "NSTATES")] ->
        params !! name = Some v -> validate_input keyword v = false ->
        exists e, fst (_convert_special_params atoms w) = Raised e).
Proof.
  cbv zeta. rewrite convert_special_params_translated. cbv zeta. cbn [fst].
  set (params := special_params (self w)).
  assert (Hxc : forall key, key <> "EXCHANGE_CORRELATION" ->
            xc_keyword (params !! "xc") !! key = None).
  { intros key Hne. destruct (xc_keyword (params !! "xc") !! key) as [v|] eqn:Hv;
      [| reflexivity].
    apply xc_keyword_lookup in Hv. destruct Hv as [Hv _]. contradiction. }
  assert (Hret : forall d,
    translated atoms (params !! "xc") (params !! "h") (params !! "gpts")
      (params !! "kpts") (params !! "nbands") = Returned d ->
    d !! "KPOINT_GRID" = params !! "kpts"
    /\ d !! "NSTATES" = params !! "nbands"
    /\ (params !! "h" = None -> d !! "FD_GRID" = params !! "gpts")
    /\ (forall x, params !! "kpts" = Some x -> validate_input "KPOINT_GRID" x = true)
    /\ (forall x, params !! "nbands" = Some x -> validate_input "NSTATES" x = true)
    /\ (forall x, params !! "gpts" = Some x -> validate_input "FD_GRID" x = true)).
  { intros d Hd. apply translated_returned in Hd.
    destruct Hd as (grid & Hgrid & -> & Hg & Hk & Hn).
    rewrite !with_entry_lookup.
    repeat (destruct (decide _) as [Heq | Hne]; try discriminate; try congruence).
    rewrite !Hxc by discriminate.
    repeat split; auto.
    - destruct (params !! "kpts"); reflexivity.
    - destruct (params !! "nbands"); reflexivity.
    - intros Hh. unfold grid_points in Hgrid. rewrite Hh in Hgrid. injection Hgrid as <-.
      destruct (params !! "gpts"); reflexivity.
    - intros x Hx. unfold grid_points in Hgrid.
      destruct (params !! "h") as [h|].
      + rewrite Hx in Hgrid. discriminate.
      + injection Hgrid as <-. apply Hg, Hx. }
  split.
  - intros d Hd. apply Hret in Hd. destruct Hd as (H1 & H2 & H3 & _). auto.
  - intros name keyword v Hin Hv Hrej.
    destruct (translated atoms (params !! "xc") (params !! "h") (params !! "gpts")
                (params !! "kpts") (params !! "nbands")) as [d|e] eqn:Hd; [| eauto].
    exfalso. destruct (Hret d eq_refl) as (_ & _ & _ & Hk & Hn & Hg).
    rewrite !elem_of_cons, elem_of_nil in Hin.
    destruct Hin as [Heq | [Heq | [Heq | []]]]; injection Heq as -> ->.
    + rewrite (Hg v Hv) in Hrej. discriminate.
    + rewrite (Hk v Hv) in Hrej. discriminate.
    + rewrite (Hn v Hv) in Hrej. discriminate.
Qed.

(** ** Input files, construction and the whole calculation *)

(** X15. After the base class has written its part, [write_input] hands the
    bundle the label and one dictionary of parameters: the translated
    special parameters with the entries of [valid_params] over them, so a
    SPARC keyword given directly takes the place of one translated from a
    special parameter. When the translation raises, [write_input] raises the
    same exception and the bundle writes nothing. *)
Theorem write_input_parameters (atoms : option Atoms) (w w1 : world obj) :
  base_write_input host atoms w = (Returned tt, w1) ->
  (forall converted, fst (_convert_special_params atoms w1) = Returned converted ->
     exists input_parameters : gmap string pyval,
       write_input atoms w
       = write_ion_and_inpt host atoms (label (self w1)) input_parameters w1
       /\ forall key,
            input_parameters !! key
            = from_option Some (converted !! key) (valid_params (self w1) !! key))
  /\ (forall e, fst (_convert_special_params atoms w1) = Raised e ->
        write_input atoms w = (Raised e, w1)).
Proof.
  intros Hbase. unfold write_input. rewrite run_bind, Hbase. rewrite run_bind.
  pose proof (convert_special_params_world atoms w1) as Hworld.
  destruct (_convert_special_params atoms w1) as [[d|e] w2]; cbn [fst snd] in *; subst w2.
  - split; [| discriminate].
    intros converted Hd. injection Hd as <-.
    exists (valid_params (self w1) ∪ d). split; [reflexivity|].
    intros key. rewrite lookup_union.
    destruct (valid_params (self w1) !! key), (d !! key); reflexivity.
  - split; [discriminate|]. intros e' He. injection He as <-. reflexivity.
Qed.

Lemma sanitized_invariants (kwargs : list (string * pyval)) :
  (forall key value, (sanitized kwargs ∅ ∅).1 !! key = Some value ->
     upper key = key /\ validate_input key value = true
     /\ exists key', (key', value) ∈ kwargs /\ (key' ∉ special_inputs) /\ upper key' = key)
  /\ (forall key value, (sanitized kwargs ∅ ∅).2 !! key = Some value ->
        key ∈ special_inputs /\ (key, value) ∈ kwargs).
Proof.
  split.
  - intros key value Hlook. apply sanitized_valid_origin in Hlook.
    destruct Hlook as [(key' & Hin & Hns & Hup & Hv) | Hlook];
      [| rewrite lookup_empty in Hlook; discriminate].
    split; [| split; [exact Hv | exists key'; auto]].
    rewrite <- Hup. apply upper_idempotent.
  - intros key value Hlook. apply sanitized_special_origin in Hlook.
    destruct Hlook as [[Hin Hs] | Hlook]; [auto|].
    rewrite lookup_empty in Hlook. discriminate.
Qed.

(** X16. Once the base class is initialised, its setters have taken the
    directory and the label, the given one or ["SPARC"] when none is given,
    and the bundle is made from the directory and the label the calculator
    then has, [__init__] returns a calculator with no raw results and the
    keyword arguments split the right way round: every entry of
    [self.valid_params] has an upper-case key, a value the validator accepts
    and a key that is not special behind it, and every entry of
    [self.special_params] is a keyword argument with a special key.
    Directory, label, command, results and process are as these steps of the
    base class and of the bundle left them: the directory is the one the
    setter of the label assigned, not the one given. *)
Theorem init_attributes (directory0 : string) (label0 : option string)
    (atoms : option Atoms) (command0 psp_dir : option string)
    (kwargs : list (string * pyval)) (w w1 w2 w3 w4 : world obj) :
  base_init host label0 atoms command0 kwargs w = (Returned tt, w1) ->
  assign_directory base directory0 w1 = (Returned tt, w2) ->
  assign_label base (default "SPARC" label0) w2 = (Returned tt, w3) ->
  create_bundle base (directory (self w3)) atoms (label (self w3)) psp_dir w3
  = (Returned tt, w4) ->
  exists o issued,
    __init__ directory0 label0 atoms command0 psp_dir kwargs w
    = (Returned tt, World o (warnings w4 ++ issued))
    /\ raw_results o = empty_raw
    /\ directory o = directory (self w4) /\ label o = label (self w4)
    /\ command o = command (self w4) /\ results o = results (self w4)
    /\ proc o = proc (self w4)
    /\ (forall key value, valid_params o !! key = Some value ->
          upper key = key /\ validate_input key value = true
          /\ exists key', (key', value) ∈ kwargs /\ (key' ∉ special_inputs)
                          /\ upper key' = key)
    /\ (forall key value, special_params o !! key = Some value ->
          key ∈ special_inputs /\ (key, value) ∈ kwargs).
Proof.
  intros Hbase Hdir Hlabel Hbundle. unfold __init__, _detect_sparc_version.
  rewrite run_bind, Hbase. rewrite run_bind, Hdir.
  change (match label0 with Some l => l | None => "SPARC" end) with (default "SPARC" label0).
  rewrite run_bind, Hlabel. rewrite run_bind. unfold get_self at 1. cbv beta iota.
  rewrite run_bind, Hbundle. run_monad. rewrite sanitize_kwargs_run. cbn [self warnings].
  destruct (sanitized_invariants kwargs) as [Hvalid Hspecial].
  destruct (sanitized kwargs ∅ ∅) as [valid special]. cbn [fst snd] in *.
  eexists. eexists. split; [reflexivity|].
  cbn [directory label raw_results command results proc valid_params special_params
       set_raw_results set_params].
  repeat (split; [reflexivity|]).
  split; [exact Hvalid | exact Hspecial].
Qed.

(** X17. When the process ends with a return code greater than zero,
    [calculate] raises [CalculationFailed] and does not read the output: the
    bundle's [read_results] is not called, and the raw results and the
    results of the calculator are those it had when the input was written. *)
Theorem calculate_failed_run (atoms : option Atoms) (w w1 w2 w3 : world obj)
    (cmd : string) (returncode : Z) :
  base_calculate host atoms w = (Returned tt, w1) ->
  write_input (self_atoms host (self w1)) w1 = (Returned tt, w2) ->
  _make_command (inr ("-name " ++ label (self w2))) w2 = (Returned cmd, w3) ->
  subprocess_run cmd (directory (self w3)) = inr returncode ->
  0 < returncode ->
  exists msg w',
    calculate atoms w = (Raised (Exn CalculationFailed msg), w')
    /\ proc (self w') = Some returncode
    /\ raw_results (self w') = raw_results (self w2)
    /\ results (self w') = results (self w2).
Proof.
  intros Hbase Hwrite Hstart Hrun Hrc. unfold calculate.
  rewrite run_bind, Hbase. rewrite run_bind. unfold get_self at 1. cbv beta iota.
  rewrite run_bind, Hwrite. rewrite run_bind, execute_run, Hstart, Hrun. cbv zeta.
  replace (0 <? returncode) with true by (symmetry; apply Z.ltb_lt; exact Hrc).
  eexists. eexists. split; [reflexivity|]. cbn [self proc raw_results results set_proc].
  destruct (make_command_frame (inr ("-name " ++ label (self w2))) w2) as [Hsame _].
  rewrite Hstart in Hsame. cbn [snd] in Hsame.
  destruct Hsame as (_ & _ & _ & _ & Hraw & Hres & _). auto.
Qed.

End Calculator.

(** ** The theorems on concrete calculators *)

Ltac by_computation := apply (bool_decide_unpack _); vm_compute; exact I.

(** With the executable found in the [PATH] and nothing else set, a process
    that ends with return code 2 makes [execute] raise [CalculationFailed],
    and one that ends with return code 0 lets it return. *)
Lemma execute_fails_on_positive_code_witness :
  execute ∅ found_serial (completes_with 2) fresh_world
  = (Raised (Exn CalculationFailed
               "SPARC failed with command sparc -name SPARCwith error code 2"),
     World (set_proc (Some 2) (set_command (Some "sparc") fresh))
           [inferred_warning "sparc"])
  /\ execute ∅ found_serial (completes_with 0) fresh_world
     = (Returned tt,
        World (set_proc (Some 0) (set_command (Some "sparc") fresh))
              [inferred_warning "sparc"]).
Proof.
  split.
  - destruct (execute_fails_on_positive_code ∅ found_serial (completes_with 2) fresh_world)
      as [H _].
    destruct (H "sparc -name SPARC"
                (World (set_command (Some "sparc") fresh) [inferred_warning "sparc"]) 2
                eq_refl eq_refl) as [Hpos _].
    apply Hpos. reflexivity.
  - destruct (execute_fails_on_positive_code ∅ found_serial (completes_with 0) fresh_world)
      as [H _].
    destruct (H "sparc -name SPARC"
                (World (set_command (Some "sparc") fresh) [inferred_warning "sparc"]) 0
                eq_refl eq_refl) as [_ Hzero].
    apply Hzero. discriminate.
Defined.

(** The command found in the [PATH] with a launcher, followed by the
    stripped extras. *)
Lemma make_command_precedence_witness :
  _make_command ∅ found_parallel (inr " -name SPARC ") fresh_world
  = (Returned "mpirun -n 4 sparc -name SPARC",
     World (set_command (Some "mpirun -n 4 sparc") fresh)
           [inferred_warning "mpirun -n 4 sparc"]).
Proof.
  destruct (make_command_precedence ∅ found_parallel (inr " -name SPARC ") fresh_world)
    as [_ H].
  destruct (H eq_refl) as [_ Hpath].
  destruct (Hpath eq_refl) as [Hmpi _].
  exact (Hmpi "sparc" "mpirun" 4 eq_refl).
Defined.

(** A Fermi level of 0.5 Hartree is stored in eV. *)
Lemma extract_out_results_fermi_witness :
  _extract_out_results 27.211386024367243 world_with_fermi
  = (Returned tt,
     World (set_results {["fermi" := PyFloat 13.605693012183622]} (self world_with_fermi)) []).
Proof.
  destruct (extract_out_results_fermi 27.211386024367243 world_with_fermi) as [H _].
  destruct (H fermi_in_hartree eq_refl) as (_ & Hhartree & _).
  rewrite (Hhartree eq_refl). reflexivity.
Defined.

(** ["PBE"] alone is translated to the single keyword. *)
Lemma convert_xc_keyword_witness :
  fst (_convert_special_params example_validator unit unit id example_h2gpts example_py_str
         None (world_with_params {["xc" := PyStr "PBE"]}))
  = Returned {["EXCHANGE_CORRELATION" := PyStr "GGA_PBE"]}.
Proof.
  assert (Hxc : special_params (self (world_with_params {["xc" := PyStr "PBE"]})) !! "xc"
                = Some (PyStr "PBE")) by (vm_compute; reflexivity).
  destruct (convert_xc_keyword example_validator unit unit id example_h2gpts example_py_str
              None (world_with_params {["xc" := PyStr "PBE"]}) "PBE" Hxc) as [Hpbe _].
  destruct Hpbe as [Heq _]; [vm_compute; reflexivity|].
  rewrite Heq. vm_compute. reflexivity.
Defined.

(** ["scan"] alone is translated to nothing. *)
Lemma convert_xc_discarded_witness :
  _convert_special_params example_validator unit unit id example_h2gpts example_py_str
    None (world_with_params {["xc" := PyStr "scan"]})
  = (Returned ∅, world_with_params {["xc" := PyStr "scan"]}).
Proof.
  assert (Hxc : special_params (self (world_with_params {["xc" := PyStr "scan"]})) !! "xc"
                = Some (PyStr "scan")) by (vm_compute; reflexivity).
  destruct (convert_xc_discarded example_validator unit unit id example_h2gpts example_py_str
              None (world_with_params {["xc" := PyStr "scan"]}) "scan" Hxc)
    as (_ & _ & _ & Hnothing).
  - vm_compute. discriminate.
  - vm_compute. discriminate.
  - apply Hnothing. intros key Hkey. unfold grid_inputs in Hkey.
    rewrite !elem_of_cons, elem_of_nil in Hkey.
    destruct Hkey as [->|[->|[->|[->|[]]]]]; vm_compute; reflexivity.
Defined.

(** A spacing alone, with atoms, is translated to the grid of [h2gpts]. *)
Lemma convert_h_to_fd_grid_witness :
  _convert_special_params example_validator unit unit id example_h2gpts example_py_str
    (Some tt) (world_with_params {["h" := PyFloat 0.2]})
  = (Returned {["FD_GRID" := PySeq [PyInt 25; PyInt 25; PyInt 25]]},
     world_with_params {["h" := PyFloat 0.2]}).
Proof.
  destruct (convert_h_to_fd_grid example_validator unit unit id example_h2gpts example_py_str
              (Some tt) (world_with_params {["h" := PyFloat 0.2]}) (PyFloat 0.2))
    as (_ & _ & Hgrid).
  - intros v Hv. vm_compute in Hv. discriminate.
  - vm_compute. reflexivity.
  - destruct (Hgrid ltac:(vm_compute; reflexivity) tt eq_refl) as (_ & _ & Halone).
    apply Halone; [| reflexivity].
    intros key Hkey. rewrite !elem_of_cons, elem_of_nil in Hkey.
    destruct Hkey as [->|[->|[->|[]]]]; vm_compute; reflexivity.
Defined.

(** The example keyword arguments are partitioned. *)
Lemma sanitize_kwargs_partition_witness :
  NoDup example_kwargs.*1 /\ NoDup (passed_keys example_kwargs)
  /\ sanitize_partitions example_validator example_kwargs.
Proof.
  assert (H1 : NoDup example_kwargs.*1) by by_computation.
  assert (H2 : NoDup (passed_keys example_kwargs)) by by_computation.
  split; [exact H1 | split; [exact H2 |]].
  exact (sanitize_kwargs_partition example_validator example_kwargs H1 H2).
Defined.

(** C3, as stated, fails on keyword arguments with the keys ["tol"] and
    ["TOL"], the first with an accepted value and the second with a rejected
    one: the rejected key ["TOL"] is in [valid_params], with the value given
    for ["tol"]. *)
Lemma sanitize_kwargs_case_clash :
  NoDup clashing_kwargs.*1
  /\ ~ sanitize_partitions example_validator clashing_kwargs.
Proof.
  split; [by_computation|].
  intros H. destruct (H fresh_world) as (v & sp & issued & Hrun & Hitems & _).
  vm_compute in Hrun. injection Hrun as <- <- _.
  destruct (Hitems "TOL" PyNone) as [_ Hother].
  { apply list_elem_of_further, list_elem_of_here. }
  destruct Hother as [_ Hrejected]; [by_computation|].
  destruct (Hrejected eq_refl) as [Habsent _].
  vm_compute in Habsent. discriminate.
Qed.


(** X4. With a ["static"] entry in the raw results, [read_results] does the
    same whatever [_extract_geopt_results] and [_extract_aimd_results] are:
    the static branch comes first and the other two are not run, also when
    the raw results have a ["geopt"] or an ["aimd"] entry too. *)
Theorem read_results_static_first (Hartree : float)
    (geopt1 aimd1 geopt2 aimd2 : M obj unit) (raw : raw_results_dict) (w : world obj) :
  is_Some (static raw) ->
  read_results Hartree geopt1 aimd1 raw w = read_results Hartree geopt2 aimd2 raw w.
Proof.
  intros Hst.
  rewrite (read_results_static Hartree geopt1 aimd1 raw w Hst).
  rewrite (read_results_static Hartree geopt2 aimd2 raw w Hst).
  reflexivity.
Qed.

(** X5. The command is resolved once: after a call of [_make_command] that
    returned, the command it used is in [self.command], and every later
    call, whatever the environment and the [PATH] have become, returns that
    command followed by its extras, warns of nothing and changes nothing. *)
Theorem make_command_resolved_once (environ : gmap string string)
    (found_sparc : option string * option string * Z)
    (extras : list string + string) (w w1 : world obj) (s : string) :
  _make_command environ found_sparc extras w = (Returned s, w1) ->
  exists c,
    command (self w1) = Some c
    /\ s = c ++ " " ++ extras_string extras
    /\ forall environ' found_sparc' extras',
         _make_command environ' found_sparc' extras' w1
         = (Returned (c ++ " " ++ extras_string extras'), w1).
Proof.
  rewrite make_command_run.
  assert (Hlater : forall c, command (self w1) = Some c ->
            forall environ' found_sparc' extras',
              _make_command environ' found_sparc' extras' w1
              = (Returned (c ++ " " ++ extras_string extras'), w1)).
  { intros c Hc environ' found_sparc' extras'. rewrite make_command_run, Hc. reflexivity. }
  destruct (command (self w)) as [c|] eqn:Hc.
  - intros H. injection H as <- <-. exists c. auto.
  - destruct (environ !! "ASE_SPARC_COMMAND") as [c|].
    + intros H. injection H as <- <-. exists c. cbn [self]. auto.
    + destruct found_sparc as [[[sparc_exe|] mpi_exe] num_cores]; [| discriminate].
      cbv zeta. intros H. injection H as <- <-. eexists. cbn [self].
      split; [reflexivity | split; [reflexivity | apply Hlater; reflexivity]].
Qed.

(** ** The further theorems on concrete calculators *)

(** Static results with the Fermi level in eV: energy and Fermi level are
    stored. *)
Lemma read_results_static_stores_witness :
  exists res : gmap string pyval,
    read_results 27.211386024367243 (mret tt) (mret tt) (raw_static "eV") fresh_world
    = (Returned tt,
       World (set_results res (set_raw_results (raw_static "eV") fresh)) [])
    /\ res !! "energy" = Some (PyFloat 1.5)
    /\ res !! "fermi" = Some (PyFloat 0.25).
Proof.
  destruct (read_results_static_stores 27.211386024367243 (mret tt) (mret tt)
              (raw_static "eV") {["free energy" := PyFloat 1.5]} fresh_world eq_refl)
    as (res & Hrun & He & _ & _ & _ & Hf & _).
  - vm_compute. eauto.
  - exists res. split; [exact Hrun|]. split.
    + rewrite He. vm_compute. reflexivity.
    + rewrite Hf. vm_compute. reflexivity.
Defined.

(** Static results with the Fermi level in Rydberg: the energy is stored and
    the call raises. *)
Lemma read_results_static_wrong_unit_witness :
  exists res : gmap string pyval,
    read_results 27.211386024367243 (mret tt) (mret tt) (raw_static "Ry") fresh_world
    = (Raised (Exn ValueError "Wrong unit in Fermi!"),
       World (set_results res (set_raw_results (raw_static "Ry") fresh)) [])
    /\ res !! "energy" = Some (PyFloat 1.5).
Proof.
  destruct (read_results_static_wrong_unit 27.211386024367243 (mret tt) (mret tt)
              (raw_static "Ry") {["free energy" := PyFloat 1.5]}
              {| value := 0.25; unit_str := "Ry" |} fresh_world eq_refl)
    as (res & Hrun & He & _).
  - vm_compute. reflexivity.
  - vm_compute. reflexivity.
  - exists res. split; [exact Hrun|]. rewrite He. vm_compute. reflexivity.
Defined.

(** On static results it makes no difference that the other extractions
    would raise. *)
Lemma read_results_static_first_witness :
  read_results 27.211386024367243 (raise AttributeError "") (raise AttributeError "")
    (raw_static "eV") fresh_world
  = read_results 27.211386024367243 (mret tt) (mret tt) (raw_static "eV") fresh_world.
Proof.
  apply read_results_static_first. vm_compute. eauto.
Defined.

(** The command inferred from the [PATH] is used again when the [PATH] has
    no executable any more. *)
Lemma make_command_resolved_once_witness :
  _make_command ∅ (None, None, 1) (inl ["-socket"; ":1234"])
    (World (set_command (Some "mpirun -n 4 sparc") fresh)
           [inferred_warning "mpirun -n 4 sparc"])
  = (Returned "mpirun -n 4 sparc -socket :1234",
     World (set_command (Some "mpirun -n 4 sparc") fresh)
           [inferred_warning "mpirun -n 4 sparc"]).
Proof.
  assert (Hfirst : _make_command ∅ found_parallel (inr "") fresh_world
                   = (Returned "mpirun -n 4 sparc ",
                      World (set_command (Some "mpirun -n 4 sparc") fresh)
                            [inferred_warning "mpirun -n 4 sparc"]))
    by (vm_compute; reflexivity).
  destruct (make_command_resolved_once ∅ found_parallel (inr "") fresh_world _ _ Hfirst)
    as (c & Hc & _ & Hlater).
  vm_compute in Hc. injection Hc as <-.
  rewrite Hlater. reflexivity.
Defined.

(** A subprocess that cannot be started. *)
Lemma execute_os_error_witness :
  execute ∅ found_serial cannot_start fresh_world
  = (Raised (Exn EnvironmentError ("Failed to execute " ++ dquote ++ "sparc -name SPARC" ++ dquote)),
     World (set_command (Some "sparc") fresh) [inferred_warning "sparc"]).
Proof.
  destruct (execute_os_error ∅ found_serial cannot_start fresh_world
              (World (set_command (Some "sparc") fresh) [inferred_warning "sparc"])
              "sparc -name SPARC" "No such file or directory") as [Hrun _].
  - vm_compute. reflexivity.
  - reflexivity.
  - exact Hrun.
Defined.

(** Of three spellings, the accepted one is kept. *)
Lemma sanitize_kwargs_last_accepted_witness :
  exists valid_params special_params w',
    _sanitize_kwargs example_validator spelled_kwargs fresh_world
    = (Returned (valid_params, special_params), w')
    /\ valid_params !! "TOL" = Some (PyInt 1).
Proof.
  apply (sanitize_kwargs_last_accepted example_validator [("tol", PyNone)] [("Tol", PyNone)]
           "TOL" (PyInt 1) fresh_world).
  - by_computation.
  - reflexivity.
  - intros key' value' Hin _ _. apply list_elem_of_singleton in Hin.
    injection Hin as -> ->. reflexivity.
Defined.

(** Two accepted spellings: the warning names the keyword. *)
Lemma sanitize_kwargs_repeated_warning_witness :
  exists issued,
    warnings (snd (_sanitize_kwargs example_validator
                     [("tol", PyInt 1); ("TOL", PyInt 2)] fresh_world))
    = ([] ++ issued)%list
    /\ repeated_warning "TOL" ∈ issued.
Proof.
  apply (sanitize_kwargs_repeated_warning example_validator [] [("TOL", PyInt 2)]
           "tol" "TOL" (PyInt 1) (PyInt 2) fresh_world).
  - by_computation.
  - by_computation.
  - reflexivity.
  - apply list_elem_of_here.
  - reflexivity.
Defined.

(** A cutoff energy changes nothing. *)
Lemma convert_special_params_reads_witness :
  fst (_convert_special_params example_validator unit unit id example_h2gpts example_py_str
         None (world_with_params {["xc" := PyStr "PBE"; "encut" := PyFloat 500]}))
  = fst (_convert_special_params example_validator unit unit id example_h2gpts example_py_str
           None (world_with_params {["xc" := PyStr "PBE"]})).
Proof.
  apply (convert_special_params_reads example_validator unit unit id example_h2gpts
           example_py_str None).
  intros key Hkey. unfold translated_inputs in Hkey.
  rewrite !elem_of_cons, elem_of_nil in Hkey.
  destruct Hkey as [->|[->|[->|[->|[->|[]]]]]]; vm_compute; reflexivity.
Defined.

(** A k-point grid that is returned is one the validator accepts. *)
Lemma convert_special_params_entries_witness :
  ("KPOINT_GRID" = "EXCHANGE_CORRELATION"
   /\ (PySeq [PyInt 2; PyInt 2; PyInt 1] = PyStr "GGA_PBE"
       \/ PySeq [PyInt 2; PyInt 2; PyInt 1] = PyStr "LDA_PW"))
  \/ ("KPOINT_GRID" ∈ grid_keywords
      /\ example_validator "KPOINT_GRID" (PySeq [PyInt 2; PyInt 2; PyInt 1]) = true).
Proof.
  apply (convert_special_params_entries example_validator unit unit id example_h2gpts
           example_py_str None
           (world_with_params {["kpts" := PySeq [PyInt 2; PyInt 2; PyInt 1]]})
           {["KPOINT_GRID" := PySeq [PyInt 2; PyInt 2; PyInt 1]]}).
  - vm_compute. reflexivity.
  - vm_compute. reflexivity.
Defined.

(** A grid given as a SPARC keyword takes the place of the one translated
    from [gpts]. *)
Lemma write_input_parameters_witness :
  exists input_parameters : gmap string pyval,
    write_input example_validator unit unit id example_h2gpts example_py_str
      (idle_host unit) None
      (world_with_both {["FD_GRID" := PySeq [PyInt 30; PyInt 30; PyInt 30]]}
                       {["gpts" := PySeq [PyInt 20; PyInt 20; PyInt 20]]})
    = write_ion_and_inpt unit (idle_host unit) None "SPARC" input_parameters
        (world_with_both {["FD_GRID" := PySeq [PyInt 30; PyInt 30; PyInt 30]]}
                         {["gpts" := PySeq [PyInt 20; PyInt 20; PyInt 20]]})
    /\ input_parameters !! "FD_GRID" = Some (PySeq [PyInt 30; PyInt 30; PyInt 30]).
Proof.
  destruct (write_input_parameters example_validator unit unit id example_h2gpts
              example_py_str (idle_host unit) None
              (world_with_both {["FD_GRID" := PySeq [PyInt 30; PyInt 30; PyInt 30]]}
                               {["gpts" := PySeq [PyInt 20; PyInt 20; PyInt 20]]})
              _ eq_refl) as [Hwrite _].
  destruct (Hwrite {["FD_GRID" := PySeq [PyInt 20; PyInt 20; PyInt 20]]})
    as (input_parameters & Hrun & Hlook).
  - vm_compute. reflexivity.
  - exists input_parameters. split; [exact Hrun|].
    rewrite Hlook. vm_compute. reflexivity.
Defined.

(** A calculator made in the directory run without a label: the label is
    SPARC and its setter has put the directory back to the current one. *)
Lemma init_attributes_witness :
  exists o issued,
    __init__ example_validator unit (idle_host unit) (plain_label_setters unit)
      "run" None None None None example_kwargs fresh_world
    = (Returned tt, World o ([] ++ issued))
    /\ raw_results o = empty_raw /\ directory o = "." /\ label o = "SPARC".
Proof.
  destruct (init_attributes example_validator unit (idle_host unit)
              (plain_label_setters unit)
              "run" None None None None example_kwargs fresh_world fresh_world
              (World (set_directory "run" fresh) [])
              (World (set_label "SPARC" (set_directory "." (set_directory "run" fresh))) [])
              (World (set_label "SPARC" (set_directory "." (set_directory "run" fresh))) [])
              eq_refl eq_refl eq_refl eq_refl)
    as (o & issued & Hrun & Hraw & Hd & Hl & _).
  exists o, issued. auto.
Defined.

(** A run that ends with return code 1. *)
Lemma calculate_failed_run_witness :
  exists msg w',
    calculate ∅ found_serial (completes_with 1) example_validator unit unit id example_h2gpts
      27.211386024367243 example_py_str (mret tt) (mret tt) (idle_host unit) None fresh_world
    = (Raised (Exn CalculationFailed msg), w')
    /\ proc (self w') = Some 1
    /\ raw_results (self w') = empty_raw
    /\ results (self w') = ∅.
Proof.
  apply (calculate_failed_run ∅ found_serial (completes_with 1) example_validator unit unit id
           example_h2gpts 27.211386024367243 example_py_str (mret tt) (mret tt)
           (idle_host unit) None fresh_world fresh_world fresh_world
           (World (set_command (Some "sparc") fresh) [inferred_warning "sparc"])
           "sparc -name SPARC" 1).
  - reflexivity.
  - vm_compute. reflexivity.
  - reflexivity.
  - reflexivity.
  - reflexivity.
Defined.

(** The Fermi level read back is the one of the last step, in eV. *)
Lemma get_fermi_level_after_extraction_witness :
  fst ((_extract_out_results 27.211386024367243 ≫= fun _ => get_fermi_level) world_with_fermi)
  = Returned (Some (PyFloat 13.605693012183622)).
Proof.
  destruct (get_fermi_level_after_extraction 27.211386024367243 world_with_fermi) as [H _].
  apply (H fermi_in_hartree).
  - vm_compute. reflexivity.
  - vm_compute. reflexivity.
Defined.

(** A k-point grid is passed on as given. *)
Lemma convert_special_params_grids_witness :
  fst (_convert_special_params example_validator unit unit id example_h2gpts example_py_str
         None (world_with_params {["kpts" := PySeq [PyInt 2; PyInt 2; PyInt 1]]}))
  = Returned {["KPOINT_GRID" := PySeq [PyInt 2; PyInt 2; PyInt 1]]}
  /\ ({["KPOINT_GRID" := PySeq [PyInt 2; PyInt 2; PyInt 1]]} : gmap string pyval)
       !! "KPOINT_GRID"
     = Some (PySeq [PyInt 2; PyInt 2; PyInt 1]).
Proof.
  assert (Hd : fst (_convert_special_params example_validator unit unit id example_h2gpts
                      example_py_str None
                      (world_with_params {["kpts" := PySeq [PyInt 2; PyInt 2; PyInt 1]]}))
               = Returned {["KPOINT_GRID" := PySeq [PyInt 2; PyInt 2; PyInt 1]]})
    by (vm_compute; reflexivity).
  split; [exact Hd|].
  destruct (convert_special_params_grids example_validator unit unit id example_h2gpts
              example_py_str None
              (world_with_params {["kpts" := PySeq [PyInt 2; PyInt 2; PyInt 1]]})) as [H _].
  destruct (H _ Hd) as [Hk _].
  rewrite Hk. vm_compute. reflexivity.
Defined.

(** C5, as stated, fails. With ["h"] and ["gpts"] both given and no atoms
    the call raises [KeyError], where the second clause asks for
    [ValueError]; and with ["xc"] set to the number 1 beside them it raises
    [AttributeError], where the first clause asks for [KeyError]. *)
Lemma convert_h_gpts_clauses_clash :
  fst (_convert_special_params example_validator unit unit id example_h2gpts example_py_str
         None (world_with_params {["h" := PyFloat 0.2; "gpts" := PySeq [PyInt 20]]}))
  = Raised (Exn KeyError "h and gpts cannot be provided together in SPARC calculator!")
  /\ fst (_convert_special_params example_validator unit unit id example_h2gpts
            example_py_str None
            (world_with_params
               {["xc" := PyInt 1; "h" := PyFloat 0.2; "gpts" := PySeq [PyInt 20]]}))
     = Raised attribute_error
  /\ ~ convert_h_as_stated example_validator unit unit id example_h2gpts example_py_str.
Proof.
  split; [vm_compute; reflexivity | split; [vm_compute; reflexivity |]].
  intros H.
  destruct (H None (world_with_params {["h" := PyFloat 0.2; "gpts" := PySeq [PyInt 20]]})
              (PyFloat 0.2)) as (_ & Hvalue & _).
  - vm_compute. reflexivity.
  - destruct (Hvalue eq_refl) as [msg Hmsg]. vm_compute in Hmsg. discriminate.
Qed.

(** C10, as stated, fails on a value of ["xc"] that is not a string: with
    ["xc"] set to the number 1 or to [None] and nothing else given, the call
    raises [AttributeError] instead of returning the empty dictionary. *)
Lemma convert_xc_not_a_string :
  fst (_convert_special_params example_validator unit unit id example_h2gpts example_py_str
         None (world_with_params {["xc" := PyInt 1]}))
  = Raised attribute_error
  /\ fst (_convert_special_params example_validator unit unit id example_h2gpts
            example_py_str None (world_with_params {["xc" := PyNone]}))
     = Raised attribute_error
  /\ ~ convert_xc_as_stated example_validator unit unit id example_h2gpts example_py_str.
Proof.
  split; [vm_compute; reflexivity | split; [vm_compute; reflexivity |]].
  intros H.
  destruct (H None (world_with_params {["xc" := PyInt 1]}) (PyInt 1)) as (_ & _ & _ & Hempty).
  - vm_compute. reflexivity.
  - intros s Hs. discriminate.
  - assert (Hrun : _convert_special_params example_validator unit unit id example_h2gpts
                     example_py_str None (world_with_params {["xc" := PyInt 1]})
                   = (Returned ∅, world_with_params {["xc" := PyInt 1]})).
    { apply Hempty. intros key Hkey. unfold grid_inputs in Hkey.
      rewrite !elem_of_cons, elem_of_nil in Hkey.
      destruct Hkey as [->|[->|[->|[->|[]]]]]; vm_compute; reflexivity. }
    vm_compute in Hrun. discriminate.
Qed.

End SPARC.
